(** * ts-mongo: the converter proxy of [src/converter.ts]

    [convertRawCollection] wraps a collection handle in a [Proxy] whose [get]
    trap replaces fourteen members by closures that rewrite one argument or
    the result through the five functions of a converter, and hands every
    other member back as it is.

    The embedding is shallow.  JavaScript data is a first-order value type
    [Val]; what a member may return is [Ret] (a plain value, a promise, a
    cursor); effects are threaded through a state-and-exception monad [M]
    whose state carries the storage engine's world and a log of observable
    events (a member of the raw handle invoked, a converter function
    invoked, a document produced by a cursor). *)

From Stdlib Require Import String List ZArith Bool Arith Lia.
From Stdlib Require Import DecimalString.
Import ListNotations.
Open Scope string_scope.
Open Scope list_scope.

(** ** JavaScript values *)

(** Data that travels through the proxy: documents, filters, update
    specifications, options, results.  Numbers are integers or NaN; a
    fractional double behaves, for all the proxy does (a truthiness test),
    like a non-zero integer. *)
#[warnings="-register-all"]
Inductive Val : Type :=
| VUndefined
| VNull
| VBool (b : bool)
| VNum (n : Z)
| VNaN
| VStr (s : string)
| VArr (elems : list Val)
| VObj (fields : list (string * Val)).

(** [ToBoolean]: what [v ? a : b] tests. *)
Definition truthy (v : Val) : bool :=
  match v with
  | VUndefined | VNull | VNaN => false
  | VBool b => b
  | VNum n => negb (Z.eqb n 0)
  | VStr s => negb (String.eqb s "")
  | VArr _ | VObj _ => true
  end.

(** A document ([Document], [DocumentWithId]) is an object. *)
Definition is_document (v : Val) : bool :=
  match v with VObj _ => true | _ => false end.

(** The payload of the [TypeError] the engine raises when a non-function is
    called, a property of [null]/[undefined] is read, and the like. *)
Definition TypeError : Val := VObj [("name", VStr "TypeError")].

(** Positional parameters: a missing argument is [undefined], a surplus one
    is dropped by a closure that does not name it. *)
Definition arg (i : nat) (args : list Val) : Val := nth i args VUndefined.

(** *** Object fields *)

Fixpoint lookup (k : string) (fields : list (string * Val)) : option Val :=
  match fields with
  | [] => None
  | (k', v) :: rest => if String.eqb k k' then Some v else lookup k rest
  end.

(** [o[k]] on own data properties: [undefined] when absent. *)
Definition field (k : string) (fields : list (string * Val)) : Val :=
  match lookup k fields with Some v => v | None => VUndefined end.

Definition without (k : string) (fields : list (string * Val))
  : list (string * Val) :=
  filter (fun kv => negb (String.eqb k (fst kv))) fields.

Definition index_key (i : nat) : string :=
  NilEmpty.string_of_uint (Nat.to_uint i).

Fixpoint indexed {A} (f : A -> Val) (i : nat) (l : list A)
  : list (string * Val) :=
  match l with
  | [] => []
  | x :: rest => (index_key i, f x) :: indexed f (S i) rest
  end.

(** Own enumerable properties of a value used as the source of an object
    pattern; [None] for [null] and [undefined], which cannot be
    destructured. *)
Definition own_props (v : Val) : option (list (string * Val)) :=
  match v with
  | VUndefined | VNull => None
  | VObj fields => Some fields
  | VArr elems => Some (indexed (fun x => x) 0 elems)
  | VStr s =>
      Some (indexed (fun c => VStr (String c EmptyString)) 0 (list_ascii_of_string s))
  | VBool _ | VNum _ | VNaN => Some []
  end.

(** ** Property keys and the names of [converter.ts] *)

(** A [get] trap receives a string or a symbol. *)
Inductive PropKey : Type :=
| KStr (s : string)
| KSym (id : nat).

(** [middlewareMethods], lines 6-46. *)
Definition middlewareMethods : list string :=
  [ "insertOne"; "insertMany"; "bulkWrite"; "updateOne"; "replaceOne";
    "updateMany"; "deleteOne"; "deleteMany"; "rename"; "drop"; "findOne";
    "find"; "estimatedDocumentCount"; "countDocuments"; "distinct";
    "findOneAndDelete"; "findOneAndReplace"; "findOneAndUpdate"; "aggregate";
    "watch"; "mapReduce"; "initializeUnorderedBulkOp";
    "initializeOrderedBulkOp"; "insert"; "update"; "remove"; "count";
    "createIndex"; "createIndexes"; "dropIndex"; "dropIndexes"; "listIndexes";
    "indexExists"; "indexInformation"; "indexes"; "stats" ].

(** The [case] labels of the [switch] in the [get] trap, in source order. *)
Definition intercepted : list string :=
  [ "insertOne"; "insertMany"; "updateOne"; "updateMany"; "replaceOne";
    "findOne"; "deleteOne"; "deleteMany"; "find"; "findOneAndDelete";
    "findOneAndReplace"; "findOneAndUpdate"; "insert"; "update" ].

(** ** Events, state and the monad *)

(** The five members of a [Converter]. *)
Inductive Hook : Type :=
| PreInsert | PreUpdate | PreReplace | PostFind | DeleteFilter.

Inductive Event : Type :=
| EvCall (op : PropKey) (args : list Val)
    (* a function member of the raw handle was invoked with [args] *)
| EvHook (layer : nat) (h : Hook) (x : Val)
    (* converter function [h] of wrap layer [layer] was invoked on [x] *)
| EvProduce (doc : Val).
    (* a cursor produced [doc] *)

Inductive Res (A : Type) : Type :=
| Ok (a : A)
| Throw (e : Val).
Arguments Ok {A} a.
Arguments Throw {A} e.

Definition is_hook (h : Hook) (ev : Event) : bool :=
  match ev, h with
  | EvHook _ PreInsert _, PreInsert
  | EvHook _ PreUpdate _, PreUpdate
  | EvHook _ PreReplace _, PreReplace
  | EvHook _ PostFind _, PostFind
  | EvHook _ DeleteFilter _, DeleteFilter => true
  | _, _ => false
  end.

Definition is_call (ev : Event) : bool :=
  match ev with EvCall _ _ => true | _ => false end.

Definition is_produce (ev : Event) : bool :=
  match ev with EvProduce _ => true | _ => false end.

Definition count (p : Event -> bool) (l : list Event) : nat :=
  length (filter p l).

Section Model.

(** The storage engine's state. *)
Variable W : Type.

Record State : Type := mkState { log : list Event; world : W }.

Definition M (A : Type) : Type := State -> Res A * State.

Definition ret {A} (a : A) : M A := fun s => (Ok a, s).

Definition throw {A} (e : Val) : M A := fun s => (Throw e, s).

Definition bind {A B} (m : M A) (f : A -> M B) : M B :=
  fun s =>
    match m s with
    | (Ok a, s') => f a s'
    | (Throw e, s') => (Throw e, s')
    end.

Definition emit (ev : Event) : M unit :=
  fun s => (Ok tt, mkState (log s ++ [ev]) (world s)).

Notation "x <- m ;; k" := (bind m (fun x => k))
  (at level 100, m at next level, right associativity).

Fixpoint mapM {A B} (f : A -> M B) (l : list A) : M (list B) :=
  match l with
  | [] => ret []
  | x :: rest => y <- f x ;; ys <- mapM f rest ;; ret (y :: ys)
  end.

(** ** Promises, cursors, members *)

(** A promise, by how it settles.  The callback of [then] runs when the
    promise is fulfilled; the model runs it in place. *)
Inductive Promise : Type :=
| Fulfilled (v : Val)
| Rejected (e : Val).

(** Modelled from the spec: the lazy sequence that [find] returns (the
    driver's cursor, not under src/).  It holds the matching documents not
    yet produced, in order, and the per-element transform installed by
    [map]. *)
Record Cursor : Type := mkCursor {
  pending : list Val;
  kTransform : option (Val -> M Val)
}.

Inductive Ret : Type :=
| RVal (v : Val)
| RPromise (p : Promise)
| RCursor (c : Cursor).

(** What [target[prop]] may be. *)
Inductive Member : Type :=
| MUndef
| MData (v : Val)
| MFun (f : list Val -> M Ret).

(** A collection handle, by what a property read gives. *)
Definition Handle : Type := PropKey -> Member.

(** [f(args)]: calling what is not a function raises [TypeError], after the
    arguments have been evaluated. *)
Definition call (m : Member) (args : list Val) : M Ret :=
  match m with
  | MFun f => f args
  | MUndef | MData _ => throw TypeError
  end.

(** [p.then(f)]. *)
Definition then_ (r : Ret) (f : Val -> M Val) : M Ret :=
  match r with
  | RPromise (Fulfilled v) =>
      fun s =>
        match f v s with
        | (Ok v', s') => (Ok (RPromise (Fulfilled v')), s')
        | (Throw e, s') => (Ok (RPromise (Rejected e)), s')
        end
  | RPromise (Rejected e) => ret (RPromise (Rejected e))
  | RVal _ | RCursor _ => throw TypeError
  end.

(** Modelled from the spec: [cursor.map(f)], which composes [f] after the
    transform already installed and produces nothing. *)
Definition cursor_map (f : Val -> M Val) (c : Cursor) : Cursor :=
  mkCursor (pending c)
    (Some (match kTransform c with
           | Some g => fun doc => (y <- g doc ;; f y)
           | None => f
           end)).

(** Modelled from the spec: one step of consumption.  The next pending
    document is produced and passed through the installed transform. *)
Definition cursor_next (c : Cursor) : M (option Val * Cursor) :=
  match pending c with
  | [] => ret (None, c)
  | doc :: rest =>
      _ <- emit (EvProduce doc) ;;
      y <- match kTransform c with
           | Some t => t doc
           | None => ret doc
           end ;;
      ret (Some y, mkCursor rest (kTransform c))
  end.

(** Modelled from the spec: consuming at most [k] elements. *)
Fixpoint cursor_take (k : nat) (c : Cursor) : M (list Val * Cursor) :=
  match k with
  | O => ret ([], c)
  | S k' =>
      r <- cursor_next c ;;
      match r with
      | (None, c') => ret ([], c')
      | (Some y, c') =>
          r' <- cursor_take k' c' ;;
          ret (y :: fst r', snd r')
      end
  end.

(** [x.map(f)] as the proxy writes it: array [map] on an array, the
    cursor's [map] on a cursor. *)
Definition array_map (f : Val -> M Val) (docs : Val) : M Val :=
  match docs with
  | VArr elems => ys <- mapM f elems ;; ret (VArr ys)
  | _ => throw TypeError
  end.

Definition map_ (r : Ret) (f : Val -> M Val) : M Ret :=
  match r with
  | RCursor c => ret (RCursor (cursor_map f c))
  | RVal (VArr elems) => ys <- mapM f elems ;; ret (RVal (VArr ys))
  | RVal _ | RPromise _ => throw TypeError
  end.

(** ** The converter, lines 50-67 *)

Record Converter : Type := mkConverter {
  preInsert : Val -> M Val;
  preUpdate : Val -> M Val;
  preReplace : Val -> M Val;
  postFind : Val -> M Val;
  deleteFilter : Val -> M Val
}.

(** ** [convertRawCollection], lines 69-255 *)

(** Lines 125-128. *)
Definition convertModifyResult (cv : Converter) (r : Val) : M Val :=
  match own_props r with
  | None => throw TypeError
  | Some props =>
      let value := field "value" props in
      let result := without "value" props in
      v' <- (if truthy value then postFind cv value else ret value) ;;
      ret (VObj (("value", v') :: result))
  end.

(** Lines 130-137. *)
Definition convert (target : Handle) (prop : PropKey)
    (converter : Member -> Member) : Member :=
  let oldMethod := target prop in
  converter oldMethod.

(** The [get] trap, lines 140-250. *)
Definition proxy_get (cv : Converter) (target : Handle) (prop : PropKey)
  : Member :=
  match prop with
  | KStr name =>
      if name =? "insertOne" then
        convert target prop (fun oldMethod => MFun (fun args =>
          d <- preInsert cv (arg 0 args) ;;
          call oldMethod [d; arg 1 args]))
      else if name =? "insertMany" then
        convert target prop (fun oldMethod => MFun (fun args =>
          ds <- array_map (preInsert cv) (arg 0 args) ;;
          call oldMethod [ds; arg 1 args]))
      else if name =? "updateOne" then
        convert target prop (fun oldMethod => MFun (fun args =>
          u <- preUpdate cv (arg 1 args) ;;
          call oldMethod [arg 0 args; u; arg 2 args]))
      else if name =? "updateMany" then
        convert target prop (fun oldMethod => MFun (fun args =>
          u <- preUpdate cv (arg 1 args) ;;
          call oldMethod [arg 0 args; u; arg 2 args]))
      else if name =? "replaceOne" then
        convert target prop (fun oldMethod => MFun (fun args =>
          r <- preReplace cv (arg 1 args) ;;
          call oldMethod [arg 0 args; r; arg 2 args]))
      else if name =? "findOne" then
        convert target prop (fun oldMethod => MFun (fun args =>
          p <- call oldMethod [arg 0 args; arg 1 args] ;;
          then_ p (fun result =>
            if truthy result then postFind cv result else ret VNull)))
      else if name =? "deleteOne" then
        convert target prop (fun oldMethod => MFun (fun args =>
          f <- deleteFilter cv (arg 0 args) ;;
          call oldMethod [f; arg 1 args]))
      else if name =? "deleteMany" then
        convert target prop (fun oldMethod => MFun (fun args =>
          f <- deleteFilter cv (arg 0 args) ;;
          call oldMethod [f; arg 1 args]))
      else if name =? "find" then
        convert target prop (fun oldMethod => MFun (fun args =>
          c <- call oldMethod [arg 0 args; arg 1 args] ;;
          map_ c (postFind cv)))
      else if name =? "findOneAndDelete" then
        convert target prop (fun oldMethod => MFun (fun args =>
          p <- call oldMethod [arg 0 args; arg 1 args] ;;
          then_ p (convertModifyResult cv)))
      else if name =? "findOneAndReplace" then
        convert target prop (fun oldMethod => MFun (fun args =>
          r <- preReplace cv (arg 1 args) ;;
          p <- call oldMethod [arg 0 args; r; arg 2 args] ;;
          then_ p (convertModifyResult cv)))
      else if name =? "findOneAndUpdate" then
        convert target prop (fun oldMethod => MFun (fun args =>
          u <- preUpdate cv (arg 1 args) ;;
          p <- call oldMethod [arg 0 args; u; arg 2 args] ;;
          then_ p (convertModifyResult cv)))
      else if name =? "insert" then
        convert target prop (fun oldMethod => MFun (fun args =>
          ds <- array_map (preInsert cv) (arg 0 args) ;;
          call oldMethod [ds; arg 1 args]))
      else if name =? "update" then
        convert target prop (fun oldMethod => MFun (fun args =>
          u <- preUpdate cv (arg 1 args) ;;
          call oldMethod [arg 0 args; u; arg 2 args]))
      else target prop
  | KSym _ => target prop
  end.

(** [new Proxy(collection, { get })], as the handle it behaves as. *)
Definition proxy (collection : Handle) (cv : Converter) : Handle :=
  fun prop => proxy_get cv collection prop.

Definition convertRawCollection (collection : Handle) (cv : Converter)
  : M Handle :=
  ret (proxy collection cv).

(** ** Test doubles

    The raw handle and the converter functions are observed the way a test
    observes mocks: every invocation is appended to the log. *)

(** A member of the raw handle acts on the engine's world only. *)
Definition RawMember : Type := list Val -> W -> Res Ret * W.

Inductive RawProp : Type :=
| RUndef
| RData (v : Val)
| RFun (f : RawMember).

Definition RawHandle : Type := PropKey -> RawProp.

Definition spy (raw : RawHandle) : Handle :=
  fun prop =>
    match raw prop with
    | RUndef => MUndef
    | RData v => MData v
    | RFun f =>
        MFun (fun args s =>
          let (r, w') := f args (world s) in
          (r, mkState (log s ++ [EvCall prop args]) w'))
    end.

(** A converter function that is pure, as the spec has it, but may throw. *)
Definition hook (layer : nat) (h : Hook) (f : Val -> Res Val) : Val -> M Val :=
  fun x s => (f x, mkState (log s ++ [EvHook layer h x]) (world s)).

(** One invocation of member [prop] of the raw handle on [args], after the
    events [pre]: the yardstick the wrapped operations are measured with. *)
Definition invoke_raw (raw : RawHandle) (prop : PropKey) (pre : list Event)
    (args : list Val) : M Ret :=
  fun s =>
    match raw prop with
    | RFun f =>
        let (r, w') := f args (world s) in
        (r, mkState (log s ++ pre ++ [EvCall prop args]) w')
    | RUndef | RData _ =>
        (Throw TypeError, mkState (log s ++ pre) (world s))
    end.

End Model.

Record Fns : Type := mkFns {
  f_preInsert : Val -> Res Val;
  f_preUpdate : Val -> Res Val;
  f_preReplace : Val -> Res Val;
  f_postFind : Val -> Res Val;
  f_deleteFilter : Val -> Res Val
}.

Definition fn_of (fns : Fns) (h : Hook) : Val -> Res Val :=
  match h with
  | PreInsert => f_preInsert fns
  | PreUpdate => f_preUpdate fns
  | PreReplace => f_preReplace fns
  | PostFind => f_postFind fns
  | DeleteFilter => f_deleteFilter fns
  end.

(** Converter functions that never throw. *)
Definition total_fns (pI pU pR pF dF : Val -> Val) : Fns :=
  mkFns (fun x => Ok (pI x)) (fun x => Ok (pU x)) (fun x => Ok (pR x))
        (fun x => Ok (pF x)) (fun x => Ok (dF x)).

Arguments mkState {W} log world.
Arguments log {W} s.
Arguments world {W} s.
Arguments ret {W A} a s.
Arguments throw {W A} e s.
Arguments bind {W A B} m f s.
Arguments emit {W} ev s.
Arguments mapM {W A B} f l.
Arguments mkCursor {W} pending kTransform.
Arguments pending {W} c.
Arguments kTransform {W} c.
Arguments RVal {W} v.
Arguments RPromise {W} p.
Arguments RCursor {W} c.
Arguments MUndef {W}.
Arguments MData {W} v.
Arguments MFun {W} f.
Arguments call {W} m args.
Arguments then_ {W} r f.
Arguments cursor_map {W} f c.
Arguments cursor_next {W} c.
Arguments cursor_take {W} k c.
Arguments array_map {W} f docs.
Arguments map_ {W} r f.
Arguments mkConverter {W}.
Arguments preInsert {W} c.
Arguments preUpdate {W} c.
Arguments preReplace {W} c.
Arguments postFind {W} c.
Arguments deleteFilter {W} c.
Arguments convertModifyResult {W} cv r.
Arguments convert {W} target prop converter.
Arguments proxy_get {W} cv target prop.
Arguments proxy {W} collection cv.
Arguments convertRawCollection {W} collection cv.
Arguments RUndef {W}.
Arguments RData {W} v.
Arguments RFun {W} f.
Arguments spy {W} raw.
Arguments hook {W} layer h f.
Arguments invoke_raw {W} raw prop pre args.

Definition instrument {W} (layer : nat) (fns : Fns) : Converter W :=
  mkConverter
    (hook layer PreInsert (f_preInsert fns))
    (hook layer PreUpdate (f_preUpdate fns))
    (hook layer PreReplace (f_preReplace fns))
    (hook layer PostFind (f_postFind fns))
    (hook layer DeleteFilter (f_deleteFilter fns)).

(** The wrapped handle under observation. *)
Definition wrapped {W} (raw : RawHandle W) (layer : nat) (fns : Fns)
  : Handle W :=
  proxy (spy raw) (instrument layer fns).

(** ** Sample handles and converters, for concrete runs

    The world of the sample engine is the number of operations it has
    executed. *)

Definition sample_doc (id : Z) : Val :=
  VObj [("_id", VNum id); ("name", VStr "ada")].

Definition sample_modify_result (value : Val) : Val :=
  VObj [("lastErrorObject", VObj [("n", VNum 1)]); ("value", value);
        ("ok", VNum 1)].

Definition sample_ack : Val := VObj [("acknowledged", VBool true)].

(** A collection holding three documents. *)
Definition sample_docs : list Val := [sample_doc 1; sample_doc 2; sample_doc 3].

Definition sample_findOne : RawMember nat :=
  fun _ w => (Ok (RPromise (Fulfilled (sample_doc 1))), S w).

Definition sample_find : RawMember nat :=
  fun _ w => (Ok (RCursor (mkCursor sample_docs None)), S w).

Definition sample_findAndModify : RawMember nat :=
  fun _ w =>
    (Ok (RPromise (Fulfilled (sample_modify_result (sample_doc 1)))), S w).

Definition sample_write : RawMember nat :=
  fun _ w => (Ok (RPromise (Fulfilled sample_ack)), S w).

Definition sample_raw : RawHandle nat :=
  fun prop =>
    match prop with
    | KStr name =>
        if name =? "findOne" then RFun sample_findOne
        else if name =? "find" then RFun sample_find
        else if (name =? "findOneAndDelete") || (name =? "findOneAndReplace")
                || (name =? "findOneAndUpdate") then RFun sample_findAndModify
        else if name =? "collectionName" then RData (VStr "people")
        else RFun sample_write
    | KSym _ => RUndef
    end.

(** An empty collection: nothing is ever found. *)
Definition empty_findOne : RawMember nat :=
  fun _ w => (Ok (RPromise (Fulfilled VNull)), S w).

Definition empty_findAndModify : RawMember nat :=
  fun _ w => (Ok (RPromise (Fulfilled (sample_modify_result VNull))), S w).

Definition empty_raw : RawHandle nat :=
  fun prop =>
    match prop with
    | KStr name =>
        if name =? "findOne" then RFun empty_findOne
        else if name =? "find" then
          RFun (fun _ w => (Ok (RCursor (mkCursor [] None)), S w))
        else RFun empty_findAndModify
    | KSym _ => RUndef
    end.

Definition sample_error : Val := VObj [("name", VStr "MongoServerError")].


Definition rejecting_member : RawMember nat :=
  fun _ w => (Ok (RPromise (Rejected sample_error)), S w).


Definition rejecting_raw : RawHandle nat := fun _ => RFun rejecting_member.

Definition tag (k : string) (v : Val) : Val := VObj [(k, v)].

Definition sample_fns : Fns :=
  total_fns (tag "inserted") (tag "updated") (tag "replaced") (tag "found")
            (tag "deleting").

Definition outer_fns : Fns :=
  total_fns (tag "outerInserted") (tag "outerUpdated") (tag "outerReplaced")
            (tag "outerFound") (tag "outerDeleting").



Definition s0 : State nat := mkState [] 0.


(** ** Statements shared by the find-and-modify members *)

(** What the caller of wrapped member [op] gets when the raw member, invoked
    on [uargs] after the events [pre], resolves to the modify-result with
    fields [mr]: the same fields with [value] sent through [postFind] when
    it holds a document, and the very same fields, with no run of
    [postFind], when it does not. *)
Definition modify_result_rule {W} (raw : RawHandle W) (layer : nat)
    (fns : Fns) (op : string) (pre : list Event) (args uargs : list Val)
  : Prop :=
  forall (f : RawMember W) (s : State W) (w' : W) (mr : list (string * Val)),
    raw (KStr op) = RFun f ->
    f uargs (world s) = (Ok (RPromise (Fulfilled (VObj mr))), w') ->
    let value := field "value" mr in
    let called := log s ++ pre ++ [EvCall (KStr op) uargs] in
    (forall v', truthy value = true -> f_postFind fns value = Ok v' ->
       exists mr',
         call (wrapped raw layer fns (KStr op)) args s
         = (Ok (RPromise (Fulfilled (VObj mr'))),
            mkState (called ++ [EvHook layer PostFind value]) w')
         /\ field "value" mr' = v'
         /\ without "value" mr' = without "value" mr)
    /\ (truthy value = false ->
       exists mr',
         call (wrapped raw layer fns (KStr op)) args s
         = (Ok (RPromise (Fulfilled (VObj mr'))), mkState called w')
         /\ field "value" mr' = value
         /\ without "value" mr' = without "value" mr).


(** The argument-rewrite column of the rewrite table, for the members that
    rewrite one positional argument: which converter function runs, and on
    which argument. *)
Definition argument_rewrite (name : string) : option (Hook * nat) :=
  if name =? "insertOne" then Some (PreInsert, 0)
  else if (name =? "updateOne") || (name =? "updateMany")
          || (name =? "update") || (name =? "findOneAndUpdate")
  then Some (PreUpdate, 1)
  else if (name =? "replaceOne") || (name =? "findOneAndReplace")
  then Some (PreReplace, 1)
  else if (name =? "deleteOne") || (name =? "deleteMany")
  then Some (DeleteFilter, 0)
  else None.



(** ** [convertReadWriteCollection], lines 257-268 *)

(** The three write schemas coincide in the type; the value-level body is
    the call of [convertRawCollection]. *)
Definition convertReadWriteCollection {W} (collection : Handle W)
    (converter : Converter W) : M W (Handle W) :=
  convertRawCollection collection converter.

(** ** Tables read off the [get] trap *)

(** How many parameters the closure of an intercepted member names, which
    is how many arguments it passes to [oldMethod]. *)
Definition arity (name : string) : nat :=
  if (name =? "updateOne") || (name =? "updateMany") || (name =? "replaceOne")
     || (name =? "findOneAndReplace") || (name =? "findOneAndUpdate")
     || (name =? "update")
  then 3 else 2.

(** The first [n] positional arguments, absent ones read as [undefined]. *)
Definition normalize (n : nat) (args : list Val) : list Val :=
  map (fun i => arg i args) (seq 0 n).

(** [args] as the closure forwards them, with [x] at position [pos]. *)
Definition forward (pos : nat) (x : Val) (n : nat) (args : list Val)
  : list Val :=
  map (fun i => if Nat.eqb i pos then x else arg i args) (seq 0 n).

(** The converter functions that occur in the closure of each member. *)
Definition hooks_run (prop : PropKey) : list Hook :=
  match prop with
  | KStr name =>
      if (name =? "insertOne") || (name =? "insertMany") || (name =? "insert")
      then [PreInsert]
      else if (name =? "updateOne") || (name =? "updateMany")
              || (name =? "update")
      then [PreUpdate]
      else if name =? "replaceOne" then [PreReplace]
      else if (name =? "deleteOne") || (name =? "deleteMany")
      then [DeleteFilter]
      else if (name =? "findOne") || (name =? "find")
              || (name =? "findOneAndDelete")
      then [PostFind]
      else if name =? "findOneAndReplace" then [PreReplace; PostFind]
      else if name =? "findOneAndUpdate" then [PreUpdate; PostFind]
      else []
  | KSym _ => []
  end.

(** An event a call of member [prop] of the wrapped handle may log: a run
    of one of the member's own converter functions, or a call of the same
    member of the raw handle, with as many arguments as the closure names
    when the member is intercepted. *)
Definition event_ok (layer : nat) (prop : PropKey) (ev : Event) : Prop :=
  match ev with
  | EvHook l h _ => l = layer /\ In h (hooks_run prop)
  | EvCall p uargs =>
      p = prop
      /\ (forall name, prop = KStr name -> In name intercepted ->
            length uargs = arity name)
  | EvProduce _ => False
  end.



Definition is_array (v : Val) : bool :=
  match v with VArr _ => true | _ => false end.

(** The members that rewrite one argument and leave the result alone. *)
Definition plain_writes : list string :=
  [ "insertOne"; "updateOne"; "updateMany"; "replaceOne"; "deleteOne";
    "deleteMany"; "update" ].


(** A raw handle whose every member resolves to a bare document, which
    carries no [value] field. *)
Definition bare_findAndModify : RawMember nat :=
  fun _ w => (Ok (RPromise (Fulfilled (sample_doc 1))), S w).

Definition bare_raw : RawHandle nat := fun _ => RFun bare_findAndModify.

(** A raw handle whose every member resolves to [undefined]. *)
Definition undefined_member : RawMember nat :=
  fun _ w => (Ok (RPromise (Fulfilled VUndefined)), S w).

Definition undefined_raw : RawHandle nat := fun _ => RFun undefined_member.


Definition id_fns : Fns :=
  total_fns (fun x => x) (fun x => x) (fun x => x) (fun x => x) (fun x => x).


(** A run of converter function [h] of layer [layer]. *)
Definition hook_event (layer : nat) (h : Hook) (ev : Event) : Prop :=
  match ev with
  | EvHook l h' _ => l = layer /\ h' = h
  | EvCall _ _ | EvProduce _ => False
  end.


(** An engine that keeps the documents inserted, newest first, and finds
    the newest. *)
Definition store_insertOne : RawMember (list Val) :=
  fun args w => (Ok (RPromise (Fulfilled sample_ack)), arg 0 args :: w).

Definition store_findOne : RawMember (list Val) :=
  fun _ w =>
    (Ok (RPromise (Fulfilled (match w with d :: _ => d | [] => VNull end))),
     w).

Definition store_raw : RawHandle (list Val) :=
  fun prop =>
    match prop with
    | KStr name =>
        if name =? "insertOne" then RFun store_insertOne
        else if name =? "findOne" then RFun store_findOne
        else RUndef
    | KSym _ => RUndef
    end.

(** A converter that boxes a document on the way in and unboxes it on the
    way out. *)
Definition unbox (v : Val) : Val :=
  match v with
  | VObj [(_, x)] => x
  | _ => v
  end.

Definition boxing_fns : Fns :=
  total_fns (tag "boxed") (tag "boxed") (tag "boxed") unbox (fun x => x).


(** * Properties *)

Ltac unfold_proxy :=
  unfold wrapped, proxy, proxy_get, convert, instrument, call, spy,
    invoke_raw, array_map, hook, bind, ret, throw, arg;
  cbn [String.eqb Ascii.eqb Bool.eqb nth preInsert preUpdate preReplace
       postFind deleteFilter log world fst snd].

Section Properties.

Variable W : Type.
Variable raw : RawHandle W.
Variable layer : nat.
Variable fns : Fns.

(** A key outside the [case] labels falls to the [default] branch. *)
Lemma proxy_default (cv : Converter W) (target : Handle W) (prop : PropKey) :
  (forall name, In name intercepted -> prop <> KStr name) ->
  proxy target cv prop = target prop.
Proof.
  intros Hout. unfold proxy, proxy_get.
  destruct prop as [name | id]; [ | reflexivity ].
  repeat match goal with
  | |- context [String.eqb name ?c] =>
      destruct (String.eqb_spec name c) as [-> | _];
      [ exfalso; apply (Hout c); [ simpl; tauto | reflexivity ] | ]
  end.
  reflexivity.
Qed.

(** What one call through the spy does. *)
Lemma call_spy (prop : PropKey) (args : list Val) (s : State W) :
  call (spy raw prop) args s = invoke_raw raw prop [] args s.
Proof.
  unfold call, spy, invoke_raw, throw. destruct (raw prop) as [ | v | f ].
  - rewrite app_nil_r. destruct s; reflexivity.
  - rewrite app_nil_r. destruct s; reflexivity.
  - destruct (f args (world s)). reflexivity.
Qed.

(** C1. For every property key outside the fourteen intercepted names, the
    read on the wrapped handle gives the underlying handle's own member, for
    any handle and converter; invoked on the observed handle it is one
    invocation of the raw member with the caller's arguments, no converter
    function runs, and outcome and world are the raw member's. *)
Theorem pass_through_identity (prop : PropKey) :
  (forall name, In name intercepted -> prop <> KStr name) ->
  (forall (cv : Converter W) (target : Handle W),
      proxy target cv prop = target prop)
  /\ (forall args s,
      call (wrapped raw layer fns prop) args s
      = invoke_raw raw prop [] args s).
Proof.
  intros Hout. split.
  - intros cv target. apply proxy_default, Hout.
  - intros args s. unfold wrapped. rewrite proxy_default by exact Hout.
    apply call_spy.
Qed.

Ltac finish_raw :=
  match goal with
  | |- context [raw ?k] =>
      destruct (raw k) as [ | ? | ? ]; cbn [log world];
      [ rewrite ?app_nil_r;
        try match goal with st : State _ |- _ => destruct st end;
        reflexivity ..
      | match goal with
        | |- context [let (_, _) := ?x in _] =>
            destruct x; cbn [log world]; rewrite <- ?app_assoc; reflexivity
        end ]
  end.

(** A rewrite of the first argument: [insertOne], [deleteOne],
    [deleteMany]. *)
Lemma wrapped_insertOne D O D' s :
  f_preInsert fns D = Ok D' ->
  call (wrapped raw layer fns (KStr "insertOne")) [D; O] s
  = invoke_raw raw (KStr "insertOne") [EvHook layer PreInsert D] [D'; O] s.
Proof.
  intros HD. unfold_proxy. rewrite HD. finish_raw.
Qed.

Lemma mapM_hook_ok (h : Hook) (f : Val -> Res Val) (g : Val -> Val) ds :
  (forall d, In d ds -> f d = Ok (g d)) ->
  forall s : State W,
    mapM (hook layer h f) ds s
    = (Ok (map g ds), mkState (log s ++ map (EvHook layer h) ds) (world s)).
Proof.
  induction ds as [ | d ds IH ]; intros Hall s.
  - cbn. rewrite app_nil_r. destruct s; reflexivity.
  - cbn [mapM map]. unfold bind at 1. unfold hook at 1.
    rewrite (Hall d) by (left; reflexivity).
    unfold bind at 1. rewrite IH by (intros; apply Hall; right; assumption).
    cbn. rewrite <- app_assoc. reflexivity.
Qed.

Lemma wrapped_insert_array (op : string) ds (pI : Val -> Val) O s :
  In op ["insertMany"; "insert"] ->
  (forall d, In d ds -> f_preInsert fns d = Ok (pI d)) ->
  call (wrapped raw layer fns (KStr op)) [VArr ds; O] s
  = invoke_raw raw (KStr op) (map (EvHook layer PreInsert) ds)
      [VArr (map pI ds); O] s.
Proof.
  intros Hop Hall.
  destruct Hop as [<- | [<- | []]];
    unfold wrapped, proxy, proxy_get, convert, instrument, call, array_map, arg;
    cbn [String.eqb Ascii.eqb Bool.eqb nth preInsert];
    unfold bind at 1; unfold bind at 1;
    rewrite (mapM_hook_ok PreInsert _ pI ds Hall s);
    unfold ret, spy, invoke_raw, throw; finish_raw.
Qed.

Lemma wrapped_delete (op : string) F O F' s :
  In op ["deleteOne"; "deleteMany"] ->
  f_deleteFilter fns F = Ok F' ->
  call (wrapped raw layer fns (KStr op)) [F; O] s
  = invoke_raw raw (KStr op) [EvHook layer DeleteFilter F] [F'; O] s.
Proof.
  intros Hop HF.
  destruct Hop as [<- | [<- | []]]; unfold_proxy; rewrite HF; finish_raw.
Qed.

Lemma wrapped_update (op : string) F U O U' s :
  In op ["updateOne"; "updateMany"; "update"] ->
  f_preUpdate fns U = Ok U' ->
  call (wrapped raw layer fns (KStr op)) [F; U; O] s
  = invoke_raw raw (KStr op) [EvHook layer PreUpdate U] [F; U'; O] s.
Proof.
  intros Hop HU.
  destruct Hop as [<- | [<- | [<- | []]]]; unfold_proxy; rewrite HU; finish_raw.
Qed.

Lemma wrapped_replaceOne F R O R' s :
  f_preReplace fns R = Ok R' ->
  call (wrapped raw layer fns (KStr "replaceOne")) [F; R; O] s
  = invoke_raw raw (KStr "replaceOne") [EvHook layer PreReplace R] [F; R'; O] s.
Proof.
  intros HR. unfold_proxy. rewrite HR. finish_raw.
Qed.

Lemma wrapped_findOneAndUpdate F U O U' s :
  f_preUpdate fns U = Ok U' ->
  call (wrapped raw layer fns (KStr "findOneAndUpdate")) [F; U; O] s
  = bind (invoke_raw raw (KStr "findOneAndUpdate")
            [EvHook layer PreUpdate U] [F; U'; O])
         (fun p => then_ p (convertModifyResult (instrument layer fns))) s.
Proof.
  intros HU. unfold_proxy. rewrite HU. finish_raw.
Qed.

Lemma wrapped_findOneAndReplace F R O R' s :
  f_preReplace fns R = Ok R' ->
  call (wrapped raw layer fns (KStr "findOneAndReplace")) [F; R; O] s
  = bind (invoke_raw raw (KStr "findOneAndReplace")
            [EvHook layer PreReplace R] [F; R'; O])
         (fun p => then_ p (convertModifyResult (instrument layer fns))) s.
Proof.
  intros HR. unfold_proxy. rewrite HR. finish_raw.
Qed.

Lemma wrapped_findOneAndDelete F O s :
  call (wrapped raw layer fns (KStr "findOneAndDelete")) [F; O] s
  = bind (invoke_raw raw (KStr "findOneAndDelete") [] [F; O])
         (fun p => then_ p (convertModifyResult (instrument layer fns))) s.
Proof.
  unfold_proxy. finish_raw.
Qed.

Lemma wrapped_findOne F O s :
  call (wrapped raw layer fns (KStr "findOne")) [F; O] s
  = bind (invoke_raw raw (KStr "findOne") [] [F; O])
         (fun p => then_ p (fun result =>
            if truthy result then hook layer PostFind (f_postFind fns) result
            else ret VNull)) s.
Proof.
  unfold_proxy. finish_raw.
Qed.

Lemma wrapped_find F O s :
  call (wrapped raw layer fns (KStr "find")) [F; O] s
  = bind (invoke_raw raw (KStr "find") [] [F; O])
         (fun c => map_ c (hook layer PostFind (f_postFind fns))) s.
Proof.
  unfold_proxy. finish_raw.
Qed.

Lemma count_app (p : Event -> bool) (l1 l2 : list Event) :
  count p (l1 ++ l2) = count p l1 + count p l2.
Proof.
  unfold count. rewrite filter_app, length_app. reflexivity.
Qed.

(** The log after one invocation of the raw handle. *)
Lemma invoke_raw_log (prop : PropKey) pre args (s : State W) :
  exists tail,
    log (snd (invoke_raw raw prop pre args s)) = log s ++ pre ++ tail
    /\ (tail = [] \/ tail = [EvCall prop args]).
Proof.
  unfold invoke_raw. destruct (raw prop) as [ | v | f ].
  - exists []. cbn. rewrite app_nil_r. auto.
  - exists []. cbn. rewrite app_nil_r. auto.
  - exists [EvCall prop args]. destruct (f args (world s)). cbn. auto.
Qed.

(** C2. [insertOne] on the wrapped handle is one invocation of the raw
    [insertOne] on [preInsert(D)] and the caller's options, after the one
    run of [preInsert], with the raw outcome returned as it is;
    [insertMany] and the legacy [insert] are one invocation on the array of
    the [preInsert] images, element by element in the order given. *)
Theorem insert_write_transform D O D' ds (pI : Val -> Val) (s : State W) :
  f_preInsert fns D = Ok D' ->
  (forall d, In d ds -> f_preInsert fns d = Ok (pI d)) ->
  call (wrapped raw layer fns (KStr "insertOne")) [D; O] s
  = invoke_raw raw (KStr "insertOne") [EvHook layer PreInsert D] [D'; O] s
  /\ call (wrapped raw layer fns (KStr "insertMany")) [VArr ds; O] s
     = invoke_raw raw (KStr "insertMany") (map (EvHook layer PreInsert) ds)
         [VArr (map pI ds); O] s
  /\ call (wrapped raw layer fns (KStr "insert")) [VArr ds; O] s
     = invoke_raw raw (KStr "insert") (map (EvHook layer PreInsert) ds)
         [VArr (map pI ds); O] s.
Proof.
  intros HD Hall. split; [ | split ].
  - apply wrapped_insertOne, HD.
  - apply wrapped_insert_array; [ simpl; auto | exact Hall ].
  - apply wrapped_insert_array; [ simpl; auto | exact Hall ].
Qed.

(** C5. [deleteOne] and [deleteMany] on the wrapped handle are one
    invocation of the raw operation on [deleteFilter(F)] and the caller's
    options, after the one run of [deleteFilter], with the raw outcome
    returned as it is. *)
Theorem delete_filter_rewrite (op : string) F O F' (s : State W) :
  In op ["deleteOne"; "deleteMany"] ->
  f_deleteFilter fns F = Ok F' ->
  call (wrapped raw layer fns (KStr op)) [F; O] s
  = invoke_raw raw (KStr op) [EvHook layer DeleteFilter F] [F'; O] s.
Proof.
  apply wrapped_delete.
Qed.

(** C9. The update family hands filter and options on in place and sends
    the update specification alone through [preUpdate]; the replace family
    does the same with the replacement and [preReplace].  For the two
    find-and-modify members the raw outcome then goes through [then] with
    [convertModifyResult]. *)
Theorem write_frame F U R O U' R' (s : State W) :
  f_preUpdate fns U = Ok U' ->
  f_preReplace fns R = Ok R' ->
  (forall op, In op ["updateOne"; "updateMany"; "update"] ->
     call (wrapped raw layer fns (KStr op)) [F; U; O] s
     = invoke_raw raw (KStr op) [EvHook layer PreUpdate U] [F; U'; O] s)
  /\ call (wrapped raw layer fns (KStr "replaceOne")) [F; R; O] s
     = invoke_raw raw (KStr "replaceOne") [EvHook layer PreReplace R]
         [F; R'; O] s
  /\ call (wrapped raw layer fns (KStr "findOneAndUpdate")) [F; U; O] s
     = bind (invoke_raw raw (KStr "findOneAndUpdate")
               [EvHook layer PreUpdate U] [F; U'; O])
            (fun p => then_ p (convertModifyResult (instrument layer fns))) s
  /\ call (wrapped raw layer fns (KStr "findOneAndReplace")) [F; R; O] s
     = bind (invoke_raw raw (KStr "findOneAndReplace")
               [EvHook layer PreReplace R] [F; R'; O])
            (fun p => then_ p (convertModifyResult (instrument layer fns))) s.
Proof.
  intros HU HR. repeat split.
  - intros op Hop. apply wrapped_update; assumption.
  - apply wrapped_replaceOne, HR.
  - apply wrapped_findOneAndUpdate, HU.
  - apply wrapped_findOneAndReplace, HR.
Qed.

(** C10. [remove] is listed in [middlewareMethods] but is no [case] label,
    while [insert] and [update] are: the read gives the underlying handle's
    own [remove], and a call is one invocation of the raw [remove] on the
    caller's filter with no run of [deleteFilter]. *)
Theorem legacy_remove_bypasses_deleteFilter F O (s : State W) :
  In "remove" middlewareMethods
  /\ In "insert" intercepted /\ In "update" intercepted
  /\ ~ In "remove" intercepted
  /\ (forall (cv : Converter W) (target : Handle W),
        proxy target cv (KStr "remove") = target (KStr "remove"))
  /\ call (wrapped raw layer fns (KStr "remove")) [F; O] s
     = invoke_raw raw (KStr "remove") [] [F; O] s
  /\ count (is_hook DeleteFilter)
       (log (snd (call (wrapped raw layer fns (KStr "remove")) [F; O] s)))
     = count (is_hook DeleteFilter) (log s).
Proof.
  assert (Hcall : call (wrapped raw layer fns (KStr "remove")) [F; O] s
                  = invoke_raw raw (KStr "remove") [] [F; O] s)
    by (unfold_proxy; finish_raw).
  repeat split.
  - simpl. tauto.
  - simpl. tauto.
  - simpl. tauto.
  - simpl. intros H. repeat (destruct H as [H | H]; [ discriminate H | ]).
    exact H.
  - exact Hcall.
  - rewrite Hcall.
    destruct (invoke_raw_log (KStr "remove") [] [F; O] s) as (t & -> & [-> | ->]);
      rewrite count_app; cbn; lia.
Qed.

Lemma without_idem (k : string) (v : Val) (mr : list (string * Val)) :
  without k ((k, v) :: without k mr) = without k mr.
Proof.
  unfold without. cbn [filter fst]. rewrite String.eqb_refl. cbn [negb].
  induction mr as [ | [k' x] mr IH ]; cbn [filter fst]; [ reflexivity | ].
  destruct (String.eqb k k') eqn:E; cbn [negb filter fst].
  - exact IH.
  - rewrite E. cbn [negb]. f_equal. exact IH.
Qed.

Lemma field_head (k : string) (v : Val) (mr : list (string * Val)) :
  field k ((k, v) :: mr) = v.
Proof.
  unfold field. cbn [lookup]. rewrite String.eqb_refl. reflexivity.
Qed.

(** Lines 125-128 under observation. *)
Lemma convertModifyResult_object (mr : list (string * Val)) (s : State W) :
  convertModifyResult (instrument layer fns) (VObj mr) s
  = if truthy (field "value" mr) then
      match f_postFind fns (field "value" mr) with
      | Ok v' =>
          (Ok (VObj (("value", v') :: without "value" mr)),
           mkState (log s ++ [EvHook layer PostFind (field "value" mr)])
                   (world s))
      | Throw e =>
          (Throw e,
           mkState (log s ++ [EvHook layer PostFind (field "value" mr)])
                   (world s))
      end
    else (Ok (VObj (("value", field "value" mr) :: without "value" mr)), s).
Proof.
  unfold convertModifyResult. cbn [own_props].
  destruct (truthy (field "value" mr)).
  - unfold bind, instrument, hook. cbn [postFind].
    destruct (f_postFind fns (field "value" mr)); reflexivity.
  - reflexivity.
Qed.

Lemma modify_rule_from_bind (op : string) pre args uargs :
  (forall s,
     call (wrapped raw layer fns (KStr op)) args s
     = bind (invoke_raw raw (KStr op) pre uargs)
         (fun p => then_ p (convertModifyResult (instrument layer fns))) s) ->
  modify_result_rule raw layer fns op pre args uargs.
Proof.
  intros Hcall f s w' mr Hraw Hf value called. split.
  - intros v' Htruthy Hpost.
    exists (("value", v') :: without "value" mr). split; [ | split ].
    + rewrite Hcall. unfold bind, invoke_raw. rewrite Hraw, Hf.
      cbn [then_]. rewrite convertModifyResult_object.
      fold value. rewrite Htruthy, Hpost. cbn [log world].
      subst called. rewrite <- !app_assoc. reflexivity.
    + apply field_head.
    + apply without_idem.
  - intros Hfalsy.
    exists (("value", value) :: without "value" mr). split; [ | split ].
    + rewrite Hcall. unfold bind, invoke_raw. rewrite Hraw, Hf.
      cbn [then_]. rewrite convertModifyResult_object.
      fold value. rewrite Hfalsy. reflexivity.
    + apply field_head.
    + apply without_idem.
Qed.

Lemma wrapped_findOne_found F O (f : RawMember W) w' S S' (s : State W) :
  raw (KStr "findOne") = RFun f ->
  f [F; O] (world s) = (Ok (RPromise (Fulfilled S)), w') ->
  is_document S = true ->
  f_postFind fns S = Ok S' ->
  call (wrapped raw layer fns (KStr "findOne")) [F; O] s
  = (Ok (RPromise (Fulfilled S')),
     mkState (log s ++ [EvCall (KStr "findOne") [F; O];
                        EvHook layer PostFind S]) w').
Proof.
  intros Hraw Hf Hdoc Hpost.
  rewrite wrapped_findOne. unfold bind, invoke_raw. rewrite Hraw, Hf.
  cbn [then_]. destruct S; try discriminate Hdoc.
  cbn [truthy]. unfold hook. rewrite Hpost. cbn [log world].
  rewrite <- app_assoc. reflexivity.
Qed.

(** C3. When the raw [findOne] resolves to a document, the wrapped
    [findOne] resolves to its [postFind] image, [postFind] having run once
    after the one raw call; when it resolves to [null], the wrapped
    [findOne] resolves to [null] and the log holds the raw call alone. *)
Theorem findOne_read_transform F O (f : RawMember W) w' (s : State W) :
  raw (KStr "findOne") = RFun f ->
  (forall S S',
     f [F; O] (world s) = (Ok (RPromise (Fulfilled S)), w') ->
     is_document S = true ->
     f_postFind fns S = Ok S' ->
     call (wrapped raw layer fns (KStr "findOne")) [F; O] s
     = (Ok (RPromise (Fulfilled S')),
        mkState (log s ++ [EvCall (KStr "findOne") [F; O];
                           EvHook layer PostFind S]) w'))
  /\ (f [F; O] (world s) = (Ok (RPromise (Fulfilled VNull)), w') ->
      call (wrapped raw layer fns (KStr "findOne")) [F; O] s
      = (Ok (RPromise (Fulfilled VNull)),
         mkState (log s ++ [EvCall (KStr "findOne") [F; O]]) w')).
Proof.
  intros Hraw. split.
  - intros S S' Hf Hdoc Hpost.
    apply (wrapped_findOne_found F O f w' S S' s); assumption.
  - intros Hf.
    rewrite wrapped_findOne. unfold bind, invoke_raw. rewrite Hraw, Hf.
    reflexivity.
Qed.

(** C4. For [findOneAndDelete], [findOneAndReplace] and
    [findOneAndUpdate]: when the raw modify-result carries a document, the
    wrapped one carries its [postFind] image in [value] and the same other
    fields; when it carries none, the wrapped one has the same [value] and
    the same other fields, and [postFind] has not run. *)
Theorem modify_result_field_preservation F U R O U' R' :
  f_preUpdate fns U = Ok U' ->
  f_preReplace fns R = Ok R' ->
  modify_result_rule raw layer fns "findOneAndDelete" [] [F; O] [F; O]
  /\ modify_result_rule raw layer fns "findOneAndReplace"
       [EvHook layer PreReplace R] [F; R; O] [F; R'; O]
  /\ modify_result_rule raw layer fns "findOneAndUpdate"
       [EvHook layer PreUpdate U] [F; U; O] [F; U'; O].
Proof.
  intros HU HR. split; [ | split ]; apply modify_rule_from_bind; intros s.
  - apply wrapped_findOneAndDelete.
  - apply wrapped_findOneAndReplace, HR.
  - apply wrapped_findOneAndUpdate, HU.
Qed.

(** Consumption of a mapped cursor, whatever [postFind] does: each step
    produces at most one document and runs [postFind] at most once. *)
Lemma cursor_take_outcome (g : Val -> Res Val) (K : nat) :
  forall docs (s1 : State W) r st,
    cursor_take K (mkCursor docs (Some (hook layer PostFind g))) s1 = (r, st) ->
    count is_produce (log st) <= count is_produce (log s1) + K
    /\ count (is_hook PostFind) (log st)
       <= count (is_hook PostFind) (log s1) + K.
Proof.
  induction K as [ | K IH ]; intros docs s1 r st Hrun.
  - cbn in Hrun. inversion Hrun; subst. lia.
  - cbn [cursor_take] in Hrun. unfold bind, cursor_next in Hrun.
    cbn [pending kTransform] in Hrun. destruct docs as [ | d rest ].
    + cbn in Hrun. inversion Hrun; subst. lia.
    + unfold bind, emit, hook in Hrun. cbn [log world] in Hrun.
      destruct (g d) as [y | e].
      * cbn [ret] in Hrun.
        match type of Hrun with
        | context [cursor_take K ?c ?st0] =>
            destruct (cursor_take K c st0) as [[[ys c'] | e'] s2] eqn:Etake
        end; apply IH in Etake; cbn [log] in Etake;
          rewrite !count_app in Etake; cbn in Etake;
          inversion Hrun; subst; lia.
      * inversion Hrun; subst. cbn [log]. rewrite !count_app. cbn. lia.
Qed.

Lemma cursor_take_bounds (g : Val -> Res Val) (K : nat) :
  forall docs (s1 : State W),
    let r := cursor_take K (mkCursor docs (Some (hook layer PostFind g))) s1 in
    count is_produce (log (snd r)) <= count is_produce (log s1) + K
    /\ count (is_hook PostFind) (log (snd r))
       <= count (is_hook PostFind) (log s1) + K.
Proof.
  intros docs s1 r.
  destruct r as [res st] eqn:Er. cbn [snd].
  apply (cursor_take_outcome g K docs s1 res st). exact Er.
Qed.

(** Consumption when [postFind] succeeds on the elements consumed. *)
Lemma cursor_take_exact (g : Val -> Res Val) (pF : Val -> Val) (K : nat) :
  forall docs (s1 : State W),
    (forall d, In d (firstn K docs) -> g d = Ok (pF d)) ->
    cursor_take K (mkCursor docs (Some (hook layer PostFind g))) s1
    = (Ok (map pF (firstn K docs),
           mkCursor (skipn K docs) (Some (hook layer PostFind g))),
       mkState
         (log s1 ++ flat_map (fun d => [EvProduce d; EvHook layer PostFind d])
                             (firstn K docs))
         (world s1)).
Proof.
  induction K as [ | K IH ]; intros docs s1 Hall.
  - cbn. rewrite app_nil_r. destruct s1; reflexivity.
  - cbn [cursor_take]. unfold bind at 1. unfold cursor_next.
    cbn [pending kTransform]. destruct docs as [ | d rest ].
    + cbn. rewrite app_nil_r. destruct s1; reflexivity.
    + unfold bind at 1. unfold emit at 1. unfold bind at 1. unfold hook at 1.
      cbn [log world]. rewrite (Hall d) by (left; reflexivity).
      cbn [ret]. unfold bind. rewrite IH
        by (intros x Hx; apply Hall; right; exact Hx).
      cbn [fst snd log world firstn skipn map flat_map].
      rewrite <- !app_assoc. reflexivity.
Qed.

(** C6. [find] on the wrapped handle is the one raw call followed by the
    cursor's [map]: when it returns, no document has been produced and
    [postFind] has not run.  Consuming [K] elements of the returned cursor
    produces at most [K] documents and runs [postFind] at most [K] times,
    whatever [postFind] does; when [postFind] succeeds on them, the caller
    gets the [postFind] images of the first [K] documents in their order,
    each document produced and transformed in turn, the rest left
    pending. *)
Theorem find_sequence_laziness F O (f : RawMember W) w' docs (s : State W) :
  raw (KStr "find") = RFun f ->
  f [F; O] (world s) = (Ok (RCursor (mkCursor docs None)), w') ->
  exists c,
    call (wrapped raw layer fns (KStr "find")) [F; O] s
    = (Ok (RCursor c), mkState (log s ++ [EvCall (KStr "find") [F; O]]) w')
    /\ pending c = docs
    /\ (forall K s1,
          count is_produce (log (snd (cursor_take K c s1)))
          <= count is_produce (log s1) + K
          /\ count (is_hook PostFind) (log (snd (cursor_take K c s1)))
             <= count (is_hook PostFind) (log s1) + K)
    /\ (forall K (pF : Val -> Val) s1,
          (forall d, In d (firstn K docs) -> f_postFind fns d = Ok (pF d)) ->
          exists c',
            cursor_take K c s1
            = (Ok (map pF (firstn K docs), c'),
               mkState
                 (log s1 ++ flat_map
                    (fun d => [EvProduce d; EvHook layer PostFind d])
                    (firstn K docs))
                 (world s1))
            /\ pending c' = skipn K docs).
Proof.
  intros Hraw Hf.
  exists (mkCursor docs (Some (hook layer PostFind (f_postFind fns)))).
  split; [ | split; [ | split ] ].
  - rewrite wrapped_find. unfold bind, invoke_raw. rewrite Hraw, Hf.
    reflexivity.
  - reflexivity.
  - intros K s1. apply cursor_take_bounds.
  - intros K pF s1 Hall. eexists. split.
    + apply cursor_take_exact. exact Hall.
    + reflexivity.
Qed.

(** C7. Wrapping the wrapped handle goes through the same [get] trap, with
    no test for a handle that is already a proxy: the outer layer's
    function runs first on a write and hands its image to the inner
    layer's, the inner layer's runs first on a read and hands its image to
    the outer layer's.  [postFind] maps documents to documents, as its type
    has it. *)
Theorem double_wrap_composes (outer : Fns) (lo : nat)
    D O D1 D2 F (f : RawMember W) w' S S1 S2 (s : State W) :
  f_preInsert outer D = Ok D1 ->
  f_preInsert fns D1 = Ok D2 ->
  raw (KStr "findOne") = RFun f ->
  f [F; O] (world s) = (Ok (RPromise (Fulfilled S)), w') ->
  is_document S = true ->
  f_postFind fns S = Ok S1 ->
  is_document S1 = true ->
  f_postFind outer S1 = Ok S2 ->
  let twice := proxy (wrapped raw layer fns) (instrument lo outer) in
  bind (convertRawCollection (spy raw) (instrument layer fns))
       (fun once => convertRawCollection once (instrument lo outer)) s
  = (Ok twice, s)
  /\ call (twice (KStr "insertOne")) [D; O] s
     = invoke_raw raw (KStr "insertOne")
         [EvHook lo PreInsert D; EvHook layer PreInsert D1] [D2; O] s
  /\ call (twice (KStr "findOne")) [F; O] s
     = (Ok (RPromise (Fulfilled S2)),
        mkState (log s ++ [EvCall (KStr "findOne") [F; O];
                           EvHook layer PostFind S;
                           EvHook lo PostFind S1]) w').
Proof.
  intros HD1 HD2 Hraw Hf HS HS1 HdocS1 HS2 twice. subst twice.
  split; [ reflexivity | split ].
  - unfold proxy at 1. unfold proxy_get, convert.
    cbn [String.eqb Ascii.eqb Bool.eqb]. cbn [call].
    unfold bind at 1. unfold instrument at 1. cbn [preInsert].
    unfold hook at 1. unfold arg. cbn [nth]. rewrite HD1.
    rewrite (wrapped_insertOne D1 O D2) by exact HD2.
    unfold invoke_raw. cbn [log world].
    destruct (raw (KStr "insertOne")) as [ | v | g ].
    + rewrite <- app_assoc. reflexivity.
    + rewrite <- app_assoc. reflexivity.
    + destruct (g [D2; O] (world s)). rewrite <- !app_assoc. reflexivity.
  - unfold proxy at 1. unfold proxy_get, convert.
    cbn [String.eqb Ascii.eqb Bool.eqb]. cbn [call].
    unfold bind at 1. unfold arg. cbn [nth].
    rewrite (wrapped_findOne_found F O f w' S S1 s Hraw Hf HS HS1).
    cbn [then_].
    destruct S1; try discriminate HdocS1. cbn [truthy].
    unfold instrument. cbn [postFind]. unfold hook. rewrite HS2.
    cbn [log world]. rewrite <- app_assoc. reflexivity.
Qed.



Ltac open_member Hrun :=
  cbn [call] in Hrun;
  unfold bind, instrument, arg, ret, throw in Hrun;
  cbn [preInsert preUpdate preReplace postFind deleteFilter nth log world]
    in Hrun.











(** ** Further properties of the [get] trap *)



(** X3. An intercepted member reads the positional arguments its closure
    names and no others: a call with any argument list behaves as the call
    with the first two (or three) arguments, absent ones being
    [undefined]. *)
Theorem surplus_arguments_dropped (name : string) args (s : State W) :
  In name intercepted ->
  call (wrapped raw layer fns (KStr name)) args s
  = call (wrapped raw layer fns (KStr name)) (normalize (arity name) args) s.
Proof.
  intros Hin. simpl in Hin.
  repeat (destruct Hin as [<- | Hin]; [ reflexivity | ]).
  contradiction.
Qed.

Lemma mapM_hook_events (h : Hook) (g : Val -> Res Val) ds :
  forall (s : State W) r st,
    mapM (hook layer h g) ds s = (r, st) ->
    exists evs,
      log st = log s ++ evs
      /\ Forall (hook_event layer h) evs
      /\ world st = world s.
Proof.
  induction ds as [ | d ds IH ]; intros s r st Hrun.
  - cbn in Hrun. inversion Hrun; subst. exists []. rewrite app_nil_r. auto.
  - cbn [mapM] in Hrun. unfold bind at 1 in Hrun. unfold hook at 1 in Hrun.
    destruct (g d) as [y | e].
    + unfold bind at 1 in Hrun.
      match type of Hrun with
      | context [mapM ?k ds ?st0] =>
          destruct (mapM k ds st0) as [[ys | e'] s2] eqn:Erest
      end; apply IH in Erest; cbn [log world] in Erest;
        destruct Erest as (evs & Hlog & Hall & Hw);
        inversion Hrun; subst;
        exists (EvHook layer h d :: evs);
        (split; [ rewrite Hlog, <- app_assoc; reflexivity
                | split; [ constructor; [ cbn; auto | exact Hall ]
                         | exact Hw ] ]).
    + inversion Hrun; subst. exists [EvHook layer h d]. cbn.
      split; [ reflexivity | split; [ repeat constructor | reflexivity ] ].
Qed.

Lemma array_map_events (h : Hook) (g : Val -> Res Val) v (s : State W) r st :
  array_map (hook layer h g) v s = (r, st) ->
  exists evs,
    log st = log s ++ evs
    /\ Forall (hook_event layer h) evs
    /\ world st = world s.
Proof.
  intros Hrun. unfold array_map in Hrun.
  destruct v;
    try (cbn in Hrun; inversion Hrun; subst; exists [];
         rewrite app_nil_r; auto; fail).
  unfold bind in Hrun.
  destruct (mapM (hook layer h g) elems s) as [[ys | e] s1] eqn:Em;
    apply mapM_hook_events in Em; cbn in Hrun; inversion Hrun; subst;
    exact Em.
Qed.

Lemma hook_events_ok (prop : PropKey) (h : Hook) evs :
  In h (hooks_run prop) ->
  Forall (hook_event layer h) evs ->
  Forall (event_ok layer prop) evs /\ count is_call evs = 0.
Proof.
  intros Hin Hall. induction Hall as [ | ev evs Hev _ [IH1 IH2] ].
  - split; [ constructor | reflexivity ].
  - destruct ev as [ p a | l h' x | d ]; cbn in Hev; try contradiction.
    destruct Hev as [-> ->]. split.
    + constructor; [ cbn; auto | exact IH1 ].
    + exact IH2.
Qed.

Ltac run_member Hrun :=
  repeat first
    [ progress cbv beta iota in Hrun
    | progress cbn [call own_props preInsert preUpdate preReplace postFind
                    deleteFilter] in Hrun
    | progress unfold hook, convertModifyResult, bind, ret, throw, then_, map_
        in Hrun
    | match goal with
      | g : RawMember _ |- _ =>
          match type of Hrun with
          | context [g ?a ?w] => destruct (g a w) as [[? | ?] ?]
          end
      end
    | match type of Hrun with
      | context [array_map ?k ?v ?s0] =>
          let Em := fresh "Em" in
          let evs := fresh "evs" in
          let Hlog := fresh "Hlog" in
          let Hall := fresh "Hall" in
          let Hw := fresh "Hw" in
          destruct (array_map k v s0) as [[? | ?] ?] eqn:Em;
          apply array_map_events in Em;
          destruct Em as (evs & Hlog & Hall & Hw)
      | context [mapM ?k ?l ?s0] =>
          let Em := fresh "Em" in
          let evs := fresh "evs" in
          let Hlog := fresh "Hlog" in
          let Hall := fresh "Hall" in
          let Hw := fresh "Hw" in
          destruct (mapM k l s0) as [[? | ?] ?] eqn:Em;
          apply mapM_hook_events in Em;
          destruct Em as (evs & Hlog & Hall & Hw)
      | context [match ?x with _ => _ end] =>
          lazymatch x with
          | context [match _ with _ => _ end] => fail
          | _ => idtac
          end;
          destruct x eqn:?
      end ].

Ltac event_ok_tac :=
  cbn [event_ok hooks_run String.eqb Ascii.eqb Bool.eqb orb];
  match goal with
  | |- _ = _ /\ In _ _ => split; [ reflexivity | cbn; auto ]
  | |- _ = _ /\ (forall _, _) =>
      split;
      [ reflexivity
      | let n := fresh "n" in
        let Heq := fresh "Heq" in
        let Hin := fresh "Hin" in
        intros n Heq Hin;
        first [ discriminate Heq
              | injection Heq as <-;
                first [ reflexivity
                      | exfalso; simpl in Hin; intuition congruence ] ] ]
  end.

Ltac solve_events :=
  cbn [log world] in *;
  repeat match goal with
         | Hall : Forall (hook_event _ ?h) ?evs
           |- exists _, _ /\ Forall (event_ok _ ?p) _ /\ _ =>
             let Hok := fresh "Hok" in
             let Hcnt := fresh "Hcnt" in
             destruct (hook_events_ok p h evs ltac:(cbn; auto) Hall)
               as [Hok Hcnt];
             clear Hall
         end;
  repeat match goal with
         | H : log ?x = _ ++ _ |- _ => rewrite H in *; clear H
         end;
  repeat match goal with
         | H : world ?x = world _ |- _ => rewrite H in *; clear H
         end;
  rewrite <- ?app_assoc;
  first [ exists []; split; [ rewrite app_nil_r; reflexivity | ]
        | eexists; split; [ reflexivity | ] ];
  (split;
   [ repeat first [ apply Forall_nil
                  | assumption
                  | apply Forall_app; split
                  | apply Forall_cons; [ event_ok_tac | ] ]
   | unfold count in *; rewrite ?filter_app, ?length_app; cbn;
     split; [ lia | intros; first [ reflexivity | exfalso; lia ] ] ]).

Lemma wrapped_events (prop : PropKey) args (s : State W) r st :
  call (wrapped raw layer fns prop) args s = (r, st) ->
  exists evs,
    log st = log s ++ evs
    /\ Forall (event_ok layer prop) evs
    /\ count is_call evs <= 1
    /\ (count is_call evs = 0 -> world st = world s).
Proof.
  intros Hrun.
  unfold wrapped, proxy, proxy_get, convert in Hrun.
  destruct prop as [name | id].
  - repeat match type of Hrun with
    | context [String.eqb name ?c] =>
        destruct (String.eqb_spec name c) as [-> | ?]
    end.
    all: cbv iota in Hrun.
    all: unfold spy in Hrun.
    all: match type of Hrun with
         | context [raw ?k] => destruct (raw k) as [ | ? | ? ]
         end.
    all: open_member Hrun.
    all: run_member Hrun.
    all: inversion Hrun; subst.
    all: solve_events.
  - unfold spy in Hrun.
    destruct (raw (KSym id)) as [ | ? | ? ];
      open_member Hrun; run_member Hrun; inversion Hrun; subst; solve_events.
Qed.

Lemma calls_of_events (prop : PropKey) evs :
  Forall (event_ok layer prop) evs ->
  count is_call evs <= 1 ->
  filter is_call evs = []
  \/ exists uargs,
       filter is_call evs = [EvCall prop uargs]
       /\ (forall name, prop = KStr name -> In name intercepted ->
             length uargs = arity name).
Proof.
  intros Hall Hcount. unfold count in Hcount.
  assert (Hfiltered : Forall (event_ok layer prop) (filter is_call evs)).
  { apply Forall_forall. intros ev Hin. apply filter_In in Hin.
    rewrite Forall_forall in Hall. apply Hall, Hin. }
  assert (Hcalls : Forall (fun ev => is_call ev = true) (filter is_call evs)).
  { apply Forall_forall. intros ev Hin. apply filter_In in Hin. apply Hin. }
  destruct (filter is_call evs) as [ | ev [ | ev' rest ] ].
  - left. reflexivity.
  - right. inversion Hfiltered as [ | ? ? Hev _ ]; subst.
    inversion Hcalls as [ | ? ? Hcall _ ]; subst.
    destruct ev as [ p uargs | l h x | d ]; try discriminate Hcall.
    cbn in Hev. destruct Hev as [-> Harity].
    exists uargs. split; [ reflexivity | exact Harity ].
  - cbn in Hcount. lia.
Qed.

Lemma hooks_of_events (prop : PropKey) (h : Hook) evs :
  Forall (event_ok layer prop) evs ->
  ~ In h (hooks_run prop) ->
  count (is_hook h) evs = 0.
Proof.
  intros Hall Hout. induction Hall as [ | ev evs Hev _ IH ].
  - reflexivity.
  - unfold count in *. cbn [filter].
    destruct (is_hook h ev) eqn:Eh; [ | exact IH ].
    exfalso. destruct ev as [ p a | l h' x | d ]; cbn in Eh.
    + destruct h; discriminate Eh.
    + cbn in Hev. destruct Hev as [_ Hin]. apply Hout.
      destruct h', h; try discriminate Eh; exact Hin.
    + destruct h; discriminate Eh.
Qed.

(** X4. Whatever the raw member does, one call of a member of the wrapped
    handle appends to the log either no raw call, and then the engine's
    world is untouched, or exactly one, of the member of the same name; for
    an intercepted member that call carries exactly as many arguments as
    the closure names.  No other member is called and none is called
    twice. *)
Theorem single_raw_call (prop : PropKey) args (s : State W) :
  exists evs,
    log (snd (call (wrapped raw layer fns prop) args s)) = log s ++ evs
    /\ ((filter is_call evs = []
         /\ world (snd (call (wrapped raw layer fns prop) args s)) = world s)
        \/ exists uargs,
             filter is_call evs = [EvCall prop uargs]
             /\ (forall name, prop = KStr name -> In name intercepted ->
                   length uargs = arity name)).
Proof.
  destruct (call (wrapped raw layer fns prop) args s) as [r st] eqn:Hrun.
  apply wrapped_events in Hrun.
  destruct Hrun as (evs & Hlog & Hall & Hcount & Hworld).
  exists evs. split; [ exact Hlog | ].
  destruct (calls_of_events prop evs Hall Hcount) as [Hnone | Hone].
  - left. split; [ exact Hnone | ].
    apply Hworld. unfold count. rewrite Hnone. reflexivity.
  - right. exact Hone.
Qed.

(** X5. A call of a member of the wrapped handle runs no converter
    function but those written in that member's closure: [deleteFilter]
    runs in [deleteOne] and [deleteMany] alone (not in
    [findOneAndDelete]), [postFind] in no write member, and none at all in
    a member that is passed through. *)
Theorem converter_function_discipline (prop : PropKey) (h : Hook) args
    (s : State W) :
  ~ In h (hooks_run prop) ->
  count (is_hook h) (log (snd (call (wrapped raw layer fns prop) args s)))
  = count (is_hook h) (log s).
Proof.
  intros Hout.
  destruct (call (wrapped raw layer fns prop) args s) as [r st] eqn:Hrun.
  apply wrapped_events in Hrun.
  destruct Hrun as (evs & Hlog & Hall & _ & _).
  cbn [snd]. rewrite Hlog, count_app.
  rewrite (hooks_of_events prop h evs Hall Hout). lia.
Qed.

(** X6. Line 185 tests the raw result for truthiness: whenever the raw
    [findOne] resolves to a falsy value, [undefined] included, the wrapped
    [findOne] resolves to [null], and [postFind] does not run. *)
Theorem findOne_falsy_is_null F O (f : RawMember W) w' S (s : State W) :
  raw (KStr "findOne") = RFun f ->
  f [F; O] (world s) = (Ok (RPromise (Fulfilled S)), w') ->
  truthy S = false ->
  call (wrapped raw layer fns (KStr "findOne")) [F; O] s
  = (Ok (RPromise (Fulfilled VNull)),
     mkState (log s ++ [EvCall (KStr "findOne") [F; O]]) w').
Proof.
  intros Hraw Hf Hfalsy.
  rewrite wrapped_findOne. unfold bind, invoke_raw. rewrite Hraw, Hf.
  cbn [then_]. rewrite Hfalsy. reflexivity.
Qed.


Lemma lookup_without_other (k k' : string) (mr : list (string * Val)) :
  k <> k' ->
  lookup k (without k' mr) = lookup k mr.
Proof.
  intros Hne. induction mr as [ | [k0 v] mr IH ]; [ reflexivity | ].
  unfold without in *. cbn [filter fst lookup].
  destruct (String.eqb_spec k' k0) as [<- | Hk0]; cbn [negb].
  - destruct (String.eqb_spec k k') as [-> | _]; [ contradiction | exact IH ].
  - cbn [lookup]. rewrite IH. reflexivity.
Qed.




Lemma field_without_other (k : string) (mr : list (string * Val)) :
  k <> "value" ->
  field k (without "value" mr) = field k mr.
Proof.
  intros Hne. unfold field. rewrite lookup_without_other by exact Hne.
  reflexivity.
Qed.

(** X9. [convertModifyResult] changes what [postFind] changes and nothing
    else: when [postFind] returns the document it is given, or [value]
    holds no document, every field of the outcome reads as in the input,
    [value] included. *)
Theorem modify_result_identity_transparent mr (s : State W) out st :
  (truthy (field "value" mr) = true ->
   f_postFind fns (field "value" mr) = Ok (field "value" mr)) ->
  convertModifyResult (instrument layer fns) (VObj mr) s = (Ok out, st) ->
  exists mr',
    out = VObj mr'
    /\ world st = world s
    /\ forall k, field k mr' = field k mr.
Proof.
  intros Hid Hrun. rewrite convertModifyResult_object in Hrun.
  destruct (truthy (field "value" mr)) eqn:Etruthy.
  - rewrite (Hid eq_refl) in Hrun. inversion Hrun; subst.
    eexists. split; [ reflexivity | split; [ reflexivity | ] ].
    intros k. destruct (String.eqb_spec k "value") as [-> | Hne].
    + apply field_head.
    + unfold field at 1. cbn [lookup].
      destruct (String.eqb_spec k "value") as [-> | _]; [ contradiction | ].
      apply field_without_other, Hne.
  - inversion Hrun; subst.
    eexists. split; [ reflexivity | split; [ reflexivity | ] ].
    intros k. destruct (String.eqb_spec k "value") as [-> | Hne].
    + apply field_head.
    + unfold field at 1. cbn [lookup].
      destruct (String.eqb_spec k "value") as [-> | _]; [ contradiction | ].
      apply field_without_other, Hne.
Qed.

(** X10. [insertMany] and the legacy [insert] call [map] on their first
    argument: given anything but an array, a single document for one, the
    call throws [TypeError] at once; [preInsert] does not run and the raw
    handle is not called. *)
Theorem insert_non_array_throws (op : string) docs O (s : State W) :
  In op ["insertMany"; "insert"] ->
  is_array docs = false ->
  call (wrapped raw layer fns (KStr op)) [docs; O] s = (Throw TypeError, s).
Proof.
  intros Hop Hnot.
  destruct Hop as [<- | [<- | []]]; unfold_proxy;
    destruct docs; try discriminate Hnot; reflexivity.
Qed.

(** X11. Two layers compose on every member that rewrites one argument:
    the outer layer's function runs first, the inner layer's runs on its
    image, and the raw member gets the inner image in the place of the
    argument, the other arguments as the caller gave them. *)
Theorem double_wrap_writes (outer : Fns) (lo : nat) (name : string)
    (h : Hook) (pos : nat) args x1 x2 (s : State W) :
  In name plain_writes ->
  argument_rewrite name = Some (h, pos) ->
  fn_of outer h (arg pos args) = Ok x1 ->
  fn_of fns h x1 = Ok x2 ->
  call (proxy (wrapped raw layer fns) (instrument lo outer) (KStr name)) args s
  = invoke_raw raw (KStr name)
      [EvHook lo h (arg pos args); EvHook layer h x1]
      (forward pos x2 (arity name) args) s.
Proof.
  intros Hin Hrule Houter Hinner. unfold plain_writes in Hin. simpl in Hin.
  repeat (destruct Hin as [<- | Hin];
          [ cbn in Hrule; inversion Hrule; subst; cbn [fn_of] in *;
            unfold arg in *; unfold_proxy; rewrite Houter; cbn [nth];
            rewrite Hinner; unfold forward, arity, arg;
            cbn [String.eqb Ascii.eqb Bool.eqb orb map seq Nat.eqb nth];
            match goal with
            | |- context [raw ?k] =>
                destruct (raw k) as [ | ? | g ]; cbn [log world];
                [ rewrite <- ?app_assoc; reflexivity ..
                | match goal with
                  | |- context [g ?a ?w] =>
                      destruct (g a w); cbn [log world];
                      rewrite <- ?app_assoc; reflexivity
                  end ]
            end | ]).
  contradiction.
Qed.

(** Consumption of a cursor whose transform succeeds on the elements
    consumed, logging [evs d] on element [d]. *)
Lemma cursor_take_transform (t : Val -> M W Val) (g : Val -> Val)
    (evs : Val -> list Event) (K : nat) :
  forall docs (s1 : State W),
    (forall d, In d (firstn K docs) ->
       forall st, t d st = (Ok (g d), mkState (log st ++ evs d) (world st))) ->
    cursor_take K (mkCursor docs (Some t)) s1
    = (Ok (map g (firstn K docs), mkCursor (skipn K docs) (Some t)),
       mkState (log s1 ++ flat_map (fun d => EvProduce d :: evs d)
                                   (firstn K docs))
               (world s1)).
Proof.
  induction K as [ | K IH ]; intros docs s1 Hall.
  - cbn. rewrite app_nil_r. destruct s1; reflexivity.
  - cbn [cursor_take]. unfold bind at 1. unfold cursor_next.
    cbn [pending kTransform]. destruct docs as [ | d rest ].
    + cbn. rewrite app_nil_r. destruct s1; reflexivity.
    + unfold bind at 1. unfold emit at 1. unfold bind at 1.
      rewrite (Hall d) by (left; reflexivity).
      cbn [ret log world]. unfold bind. rewrite IH
        by (intros x Hx; apply Hall; right; exact Hx).
      cbn [fst snd log world firstn skipn map flat_map].
      rewrite <- !app_assoc. reflexivity.
Qed.

(** X12. Two layers compose on [find] element by element and on demand:
    the call installs both layers' [postFind] and produces nothing;
    consuming [K] elements produces the first [K] documents one by one,
    each sent through the inner layer's [postFind] and its image through
    the outer layer's. *)
Theorem double_wrap_find (outer : Fns) (lo : nat) F O (f : RawMember W) w'
    docs (pFi pFo : Val -> Val) (K : nat) (s s1 : State W) :
  raw (KStr "find") = RFun f ->
  f [F; O] (world s) = (Ok (RCursor (mkCursor docs None)), w') ->
  (forall d, In d (firstn K docs) ->
     f_postFind fns d = Ok (pFi d)
     /\ f_postFind outer (pFi d) = Ok (pFo (pFi d))) ->
  exists c,
    call (proxy (wrapped raw layer fns) (instrument lo outer) (KStr "find"))
      [F; O] s
    = (Ok (RCursor c), mkState (log s ++ [EvCall (KStr "find") [F; O]]) w')
    /\ pending c = docs
    /\ exists c',
         cursor_take K c s1
         = (Ok (map (fun d => pFo (pFi d)) (firstn K docs), c'),
            mkState
              (log s1 ++ flat_map
                 (fun d => [EvProduce d; EvHook layer PostFind d;
                            EvHook lo PostFind (pFi d)])
                 (firstn K docs))
              (world s1))
         /\ pending c' = skipn K docs.
Proof.
  intros Hraw Hf Hall.
  eexists. split; [ | split ].
  - unfold proxy at 1. unfold proxy_get, convert.
    cbn [String.eqb Ascii.eqb Bool.eqb]. cbn [call]. unfold bind at 1.
    unfold arg. cbn [nth]. rewrite wrapped_find.
    unfold bind, invoke_raw. rewrite Hraw, Hf. cbn [map_ ret].
    reflexivity.
  - reflexivity.
  - eexists. split.
    + unfold cursor_map. cbn [pending kTransform].
      apply (cursor_take_transform _ (fun d => pFo (pFi d))
               (fun d => [EvHook layer PostFind d;
                          EvHook lo PostFind (pFi d)])).
      intros d Hd st. destruct (Hall d Hd) as [Hi Ho].
      unfold bind, instrument. cbn [postFind]. unfold hook.
      rewrite Hi. cbn [log world]. rewrite Ho.
      rewrite <- app_assoc. reflexivity.
    + reflexivity.
Qed.


(** X14. Every [case] label of the [get] trap is an entry of
    [middlewareMethods], neither list repeats a name, and the twenty-two
    entries that are no [case] label, [bulkWrite], [aggregate], [distinct]
    and [remove] among them, are read from the target as they are. *)
Theorem middlewareMethods_coverage :
  incl intercepted middlewareMethods
  /\ NoDup middlewareMethods
  /\ NoDup intercepted
  /\ filter (fun name => negb (existsb (String.eqb name) intercepted))
       middlewareMethods
     = [ "bulkWrite"; "rename"; "drop"; "estimatedDocumentCount";
         "countDocuments"; "distinct"; "aggregate"; "watch"; "mapReduce";
         "initializeUnorderedBulkOp"; "initializeOrderedBulkOp"; "remove";
         "count"; "createIndex"; "createIndexes"; "dropIndex"; "dropIndexes";
         "listIndexes"; "indexExists"; "indexInformation"; "indexes";
         "stats" ]
  /\ (forall name (cv : Converter W) (target : Handle W),
        In name middlewareMethods ->
        existsb (String.eqb name) intercepted = false ->
        proxy target cv (KStr name) = target (KStr name)).
Proof.
  split; [ | split; [ | split; [ | split ] ] ].
  - intros name Hin. simpl in Hin.
    repeat (destruct Hin as [<- | Hin]; [ simpl; tauto | ]).
    contradiction.
  - repeat (constructor;
            [ simpl; intros Hin;
              repeat (destruct Hin as [Hin | Hin]; [ discriminate Hin | ]);
              exact Hin | ]).
    constructor.
  - repeat (constructor;
            [ simpl; intros Hin;
              repeat (destruct Hin as [Hin | Hin]; [ discriminate Hin | ]);
              exact Hin | ]).
    constructor.
  - reflexivity.
  - intros name cv target _ Hout. apply proxy_default.
    intros label Hlabel Heq. injection Heq as ->.
    assert (Hin : existsb (String.eqb label) intercepted = true).
    { apply existsb_exists. exists label. split;
        [ exact Hlabel | apply String.eqb_refl ]. }
    rewrite Hin in Hout. discriminate Hout.
Qed.

(** X15. Through [convertReadWriteCollection], what is written is read
    back: when the engine finds the document [insertOne] stored and
    [postFind] maps the [preInsert] image of [D] back to [D], [insertOne]
    of [D] followed by [findOne] resolves to [D]; the engine has seen the
    image only. *)
Theorem read_write_round_trip D O F O' D' (fi ff : RawMember W) r w1 w2
    (s : State W) :
  raw (KStr "insertOne") = RFun fi ->
  raw (KStr "findOne") = RFun ff ->
  f_preInsert fns D = Ok D' ->
  fi [D'; O] (world s) = (Ok r, w1) ->
  ff [F; O'] w1 = (Ok (RPromise (Fulfilled D')), w2) ->
  is_document D' = true ->
  f_postFind fns D' = Ok D ->
  bind (convertReadWriteCollection (spy raw) (instrument layer fns))
    (fun h =>
       bind (call (h (KStr "insertOne")) [D; O])
         (fun _ => call (h (KStr "findOne")) [F; O'])) s
  = (Ok (RPromise (Fulfilled D)),
     mkState (log s ++ [EvHook layer PreInsert D;
                        EvCall (KStr "insertOne") [D'; O];
                        EvCall (KStr "findOne") [F; O'];
                        EvHook layer PostFind D']) w2).
Proof.
  intros Hi Hf HD Hfi Hff Hdoc Hback.
  unfold convertReadWriteCollection, convertRawCollection.
  unfold bind at 1. cbn [ret]. fold (wrapped raw layer fns).
  unfold bind at 1.
  rewrite (wrapped_insertOne D O D' s HD).
  unfold invoke_raw at 1. rewrite Hi, Hfi.
  rewrite (wrapped_findOne_found F O' ff w2 D' D
             (mkState (log s ++ [EvHook layer PreInsert D]
                       ++ [EvCall (KStr "insertOne") [D'; O]]) w1)
             Hf Hff Hdoc Hback).
  cbn [log world]. rewrite <- !app_assoc. reflexivity.
Qed.

End Properties.

(** * Concrete runs *)

(** [aggregate] is no [case] label: the sample engine sees the caller's pipeline. *)
Lemma pass_through_identity_witness :
  (forall name, In name intercepted -> KStr "aggregate" <> KStr name)
  /\ call (wrapped sample_raw 0 sample_fns (KStr "aggregate"))
       [VArr []; VUndefined] s0
     = (Ok (RPromise (Fulfilled sample_ack)),
        mkState [EvCall (KStr "aggregate") [VArr []; VUndefined]] 1).
Proof.
  assert (Hout : forall name,
             In name intercepted -> KStr "aggregate" <> KStr name).
  { intros name Hin Heq. injection Heq as <-. simpl in Hin.
    repeat (destruct Hin as [Hin | Hin]; [ discriminate Hin | ]).
    exact Hin. }
  split; [ exact Hout | ].
  exact (proj2 (pass_through_identity nat sample_raw 0 sample_fns
                  (KStr "aggregate") Hout) [VArr []; VUndefined] s0).
Defined.

(** The three insert members on the sample collection. *)
Lemma insert_write_transform_witness :
  f_preInsert sample_fns (sample_doc 7) = Ok (tag "inserted" (sample_doc 7))
  /\ call (wrapped sample_raw 0 sample_fns (KStr "insertOne"))
       [sample_doc 7; VUndefined] s0
     = (Ok (RPromise (Fulfilled sample_ack)),
        mkState [EvHook 0 PreInsert (sample_doc 7);
                 EvCall (KStr "insertOne")
                   [tag "inserted" (sample_doc 7); VUndefined]] 1)
  /\ call (wrapped sample_raw 0 sample_fns (KStr "insertMany"))
       [VArr [sample_doc 8; sample_doc 9]; VUndefined] s0
     = (Ok (RPromise (Fulfilled sample_ack)),
        mkState [EvHook 0 PreInsert (sample_doc 8);
                 EvHook 0 PreInsert (sample_doc 9);
                 EvCall (KStr "insertMany")
                   [VArr [tag "inserted" (sample_doc 8);
                          tag "inserted" (sample_doc 9)]; VUndefined]] 1)
  /\ call (wrapped sample_raw 0 sample_fns (KStr "insert"))
       [VArr [sample_doc 8; sample_doc 9]; VUndefined] s0
     = (Ok (RPromise (Fulfilled sample_ack)),
        mkState [EvHook 0 PreInsert (sample_doc 8);
                 EvHook 0 PreInsert (sample_doc 9);
                 EvCall (KStr "insert")
                   [VArr [tag "inserted" (sample_doc 8);
                          tag "inserted" (sample_doc 9)]; VUndefined]] 1).
Proof.
  split; [ reflexivity | ].
  exact (insert_write_transform nat sample_raw 0 sample_fns
           (sample_doc 7) VUndefined (tag "inserted" (sample_doc 7))
           [sample_doc 8; sample_doc 9] (tag "inserted") s0
           eq_refl (fun d _ => eq_refl)).
Defined.

(** [deleteMany] on the sample collection. *)
Lemma delete_filter_rewrite_witness :
  In "deleteMany" ["deleteOne"; "deleteMany"]
  /\ f_deleteFilter sample_fns (VObj [("name", VStr "ada")])
     = Ok (tag "deleting" (VObj [("name", VStr "ada")]))
  /\ call (wrapped sample_raw 0 sample_fns (KStr "deleteMany"))
       [VObj [("name", VStr "ada")]; VUndefined] s0
     = (Ok (RPromise (Fulfilled sample_ack)),
        mkState [EvHook 0 DeleteFilter (VObj [("name", VStr "ada")]);
                 EvCall (KStr "deleteMany")
                   [tag "deleting" (VObj [("name", VStr "ada")]);
                    VUndefined]] 1).
Proof.
  assert (Hop : In "deleteMany" ["deleteOne"; "deleteMany"])
    by (right; left; reflexivity).
  split; [ exact Hop | split; [ reflexivity | ] ].
  exact (delete_filter_rewrite nat sample_raw 0 sample_fns "deleteMany"
           (VObj [("name", VStr "ada")]) VUndefined
           (tag "deleting" (VObj [("name", VStr "ada")])) s0 Hop eq_refl).
Defined.

(** [findOne] on the sample collection and on the empty one. *)
Lemma findOne_read_transform_witness :
  call (wrapped sample_raw 0 sample_fns (KStr "findOne"))
    [VObj [("_id", VNum 1)]; VUndefined] s0
  = (Ok (RPromise (Fulfilled (tag "found" (sample_doc 1)))),
     mkState [EvCall (KStr "findOne") [VObj [("_id", VNum 1)]; VUndefined];
              EvHook 0 PostFind (sample_doc 1)] 1)
  /\ call (wrapped empty_raw 0 sample_fns (KStr "findOne"))
       [VObj [("_id", VNum 1)]; VUndefined] s0
     = (Ok (RPromise (Fulfilled VNull)),
        mkState [EvCall (KStr "findOne") [VObj [("_id", VNum 1)]; VUndefined]]
                1).
Proof.
  split.
  - exact (proj1 (findOne_read_transform nat sample_raw 0 sample_fns
                    (VObj [("_id", VNum 1)]) VUndefined sample_findOne 1 s0
                    eq_refl)
             (sample_doc 1) (tag "found" (sample_doc 1))
             eq_refl eq_refl eq_refl).
  - exact (proj2 (findOne_read_transform nat empty_raw 0 sample_fns
                    (VObj [("_id", VNum 1)]) VUndefined empty_findOne 1 s0
                    eq_refl)
             eq_refl).
Defined.

(** [findOneAndUpdate] finding a document, [findOneAndDelete] finding none. *)
Lemma modify_result_field_preservation_witness :
  (exists mr',
      call (wrapped sample_raw 0 sample_fns (KStr "findOneAndUpdate"))
        [VObj []; VObj [("$set", VObj [("name", VStr "eve")])]; VUndefined] s0
      = (Ok (RPromise (Fulfilled (VObj mr'))),
         mkState
           [EvHook 0 PreUpdate (VObj [("$set", VObj [("name", VStr "eve")])]);
            EvCall (KStr "findOneAndUpdate")
              [VObj [];
               tag "updated" (VObj [("$set", VObj [("name", VStr "eve")])]);
               VUndefined];
            EvHook 0 PostFind (sample_doc 1)] 1)
      /\ field "value" mr' = tag "found" (sample_doc 1)
      /\ without "value" mr'
         = [("lastErrorObject", VObj [("n", VNum 1)]); ("ok", VNum 1)])
  /\ (exists mr',
      call (wrapped empty_raw 0 sample_fns (KStr "findOneAndDelete"))
        [VObj []; VUndefined] s0
      = (Ok (RPromise (Fulfilled (VObj mr'))),
         mkState [EvCall (KStr "findOneAndDelete") [VObj []; VUndefined]] 1)
      /\ field "value" mr' = VNull
      /\ without "value" mr'
         = [("lastErrorObject", VObj [("n", VNum 1)]); ("ok", VNum 1)]).
Proof.
  split.
  - destruct (modify_result_field_preservation nat sample_raw 0 sample_fns
                (VObj []) (VObj [("$set", VObj [("name", VStr "eve")])])
                VNull VUndefined
                (tag "updated" (VObj [("$set", VObj [("name", VStr "eve")])]))
                (tag "replaced" VNull) eq_refl eq_refl)
      as (_ & _ & Hupdate).
    exact (proj1 (Hupdate sample_findAndModify s0 1
                    [("lastErrorObject", VObj [("n", VNum 1)]);
                     ("value", sample_doc 1); ("ok", VNum 1)]
                    eq_refl eq_refl)
             (tag "found" (sample_doc 1)) eq_refl eq_refl).
  - destruct (modify_result_field_preservation nat empty_raw 0 sample_fns
                (VObj []) VNull VNull VUndefined
                (tag "updated" VNull) (tag "replaced" VNull) eq_refl eq_refl)
      as (Hdelete & _ & _).
    exact (proj2 (Hdelete empty_findAndModify s0 1
                    [("lastErrorObject", VObj [("n", VNum 1)]);
                     ("value", VNull); ("ok", VNum 1)]
                    eq_refl eq_refl)
             eq_refl).
Defined.

(** Two of the three sample documents consumed: two produced, two transformed, one left pending. *)
Lemma find_sequence_laziness_witness :
  exists c,
    call (wrapped sample_raw 0 sample_fns (KStr "find"))
      [VObj []; VUndefined] s0
    = (Ok (RCursor c),
       mkState [EvCall (KStr "find") [VObj []; VUndefined]] 1)
    /\ exists c',
         cursor_take 2 c (mkState [] 1)
         = (Ok ([tag "found" (sample_doc 1); tag "found" (sample_doc 2)], c'),
            mkState [EvProduce (sample_doc 1); EvHook 0 PostFind (sample_doc 1);
                     EvProduce (sample_doc 2); EvHook 0 PostFind (sample_doc 2)]
                    1)
         /\ pending c' = [sample_doc 3].
Proof.
  destruct (find_sequence_laziness nat sample_raw 0 sample_fns
              (VObj []) VUndefined sample_find 1 sample_docs s0
              eq_refl eq_refl)
    as (c & Hcall & _ & _ & Hexact).
  exists c. split; [ exact Hcall | ].
  exact (Hexact 2 (tag "found") (mkState [] 1) (fun d _ => eq_refl)).
Defined.

(** Two layers over the sample collection. *)
Lemma double_wrap_composes_witness :
  call (proxy (wrapped sample_raw 0 sample_fns) (instrument 1 outer_fns)
          (KStr "insertOne"))
    [sample_doc 7; VUndefined] s0
  = (Ok (RPromise (Fulfilled sample_ack)),
     mkState [EvHook 1 PreInsert (sample_doc 7);
              EvHook 0 PreInsert (tag "outerInserted" (sample_doc 7));
              EvCall (KStr "insertOne")
                [tag "inserted" (tag "outerInserted" (sample_doc 7));
                 VUndefined]] 1)
  /\ call (proxy (wrapped sample_raw 0 sample_fns) (instrument 1 outer_fns)
             (KStr "findOne"))
       [VObj []; VUndefined] s0
     = (Ok (RPromise
              (Fulfilled (tag "outerFound" (tag "found" (sample_doc 1))))),
        mkState [EvCall (KStr "findOne") [VObj []; VUndefined];
                 EvHook 0 PostFind (sample_doc 1);
                 EvHook 1 PostFind (tag "found" (sample_doc 1))] 1).
Proof.
  destruct (double_wrap_composes nat sample_raw 0 sample_fns outer_fns 1
              (sample_doc 7) VUndefined
              (tag "outerInserted" (sample_doc 7))
              (tag "inserted" (tag "outerInserted" (sample_doc 7)))
              (VObj []) sample_findOne 1
              (sample_doc 1) (tag "found" (sample_doc 1))
              (tag "outerFound" (tag "found" (sample_doc 1))) s0
              eq_refl eq_refl eq_refl eq_refl eq_refl eq_refl eq_refl eq_refl)
    as (_ & Hinsert & HfindOne).
  split; [ exact Hinsert | exact HfindOne ].
Defined.


(** [updateMany] and [replaceOne] on the sample collection. *)
Lemma write_frame_witness :
  call (wrapped sample_raw 0 sample_fns (KStr "updateMany"))
    [VObj [("name", VStr "ada")]; VObj [("$inc", VObj [("n", VNum 1)])];
     VObj [("upsert", VBool true)]] s0
  = (Ok (RPromise (Fulfilled sample_ack)),
     mkState [EvHook 0 PreUpdate (VObj [("$inc", VObj [("n", VNum 1)])]);
              EvCall (KStr "updateMany")
                [VObj [("name", VStr "ada")];
                 tag "updated" (VObj [("$inc", VObj [("n", VNum 1)])]);
                 VObj [("upsert", VBool true)]]] 1)
  /\ call (wrapped sample_raw 0 sample_fns (KStr "replaceOne"))
       [VObj [("name", VStr "ada")]; sample_doc 4;
        VObj [("upsert", VBool true)]] s0
     = (Ok (RPromise (Fulfilled sample_ack)),
        mkState [EvHook 0 PreReplace (sample_doc 4);
                 EvCall (KStr "replaceOne")
                   [VObj [("name", VStr "ada")];
                    tag "replaced" (sample_doc 4);
                    VObj [("upsert", VBool true)]]] 1).
Proof.
  destruct (write_frame nat sample_raw 0 sample_fns
              (VObj [("name", VStr "ada")])
              (VObj [("$inc", VObj [("n", VNum 1)])])
              (sample_doc 4)
              (VObj [("upsert", VBool true)])
              (tag "updated" (VObj [("$inc", VObj [("n", VNum 1)])]))
              (tag "replaced" (sample_doc 4)) s0 eq_refl eq_refl)
    as (Hupdate & Hreplace & _ & _).
  split.
  - exact (Hupdate "updateMany" (or_intror (or_introl eq_refl))).
  - exact Hreplace.
Defined.

(** ** Concrete runs of the further properties *)



(** A third argument to [insertOne] does not reach the engine. *)
Lemma surplus_arguments_dropped_witness :
  call (wrapped sample_raw 0 sample_fns (KStr "insertOne"))
    [sample_doc 7; VUndefined; VStr "callback"] s0
  = (Ok (RPromise (Fulfilled sample_ack)),
     mkState [EvHook 0 PreInsert (sample_doc 7);
              EvCall (KStr "insertOne")
                [tag "inserted" (sample_doc 7); VUndefined]] 1).
Proof.
  assert (Hin : In "insertOne" intercepted) by (simpl; tauto).
  exact (eq_trans
           (surplus_arguments_dropped nat sample_raw 0 sample_fns "insertOne"
              [sample_doc 7; VUndefined; VStr "callback"] s0 Hin)
           eq_refl).
Defined.

(** [findOneAndDelete] does not run [deleteFilter]. *)
Lemma converter_function_discipline_witness :
  ~ In DeleteFilter (hooks_run (KStr "findOneAndDelete"))
  /\ count (is_hook DeleteFilter)
       (log (snd (call (wrapped sample_raw 0 sample_fns
                          (KStr "findOneAndDelete"))
                    [VObj [("name", VStr "ada")]; VUndefined] s0)))
     = count (is_hook DeleteFilter) (log s0).
Proof.
  assert (Hout : ~ In DeleteFilter (hooks_run (KStr "findOneAndDelete"))).
  { simpl. intros [H | []]. discriminate H. }
  split; [ exact Hout | ].
  exact (converter_function_discipline nat sample_raw 0 sample_fns
           (KStr "findOneAndDelete") DeleteFilter
           [VObj [("name", VStr "ada")]; VUndefined] s0 Hout).
Defined.

(** A raw [findOne] resolving to [undefined] is read as [null]. *)
Lemma findOne_falsy_is_null_witness :
  call (wrapped undefined_raw 0 sample_fns (KStr "findOne"))
    [VObj []; VUndefined] s0
  = (Ok (RPromise (Fulfilled VNull)),
     mkState [EvCall (KStr "findOne") [VObj []; VUndefined]] 1).
Proof.
  exact (findOne_falsy_is_null nat undefined_raw 0 sample_fns
           (VObj []) VUndefined undefined_member 1 VUndefined s0
           eq_refl eq_refl eq_refl).
Defined.



(** The identity converter on the sample modify-result. *)
Lemma modify_result_identity_transparent_witness :
  exists mr',
    VObj [("value", sample_doc 1);
          ("lastErrorObject", VObj [("n", VNum 1)]); ("ok", VNum 1)]
    = VObj mr'
    /\ world (mkState [EvHook 0 PostFind (sample_doc 1)] 0) = world s0
    /\ forall k,
         field k mr'
         = field k [("lastErrorObject", VObj [("n", VNum 1)]);
                    ("value", sample_doc 1); ("ok", VNum 1)].
Proof.
  exact (modify_result_identity_transparent nat 0 id_fns
           [("lastErrorObject", VObj [("n", VNum 1)]);
            ("value", sample_doc 1); ("ok", VNum 1)]
           s0 _ _ (fun _ => eq_refl) eq_refl).
Defined.

(** The legacy [insert] given one document instead of an array. *)
Lemma insert_non_array_throws_witness :
  call (wrapped sample_raw 0 sample_fns (KStr "insert"))
    [sample_doc 7; VUndefined] s0
  = (Throw TypeError, s0).
Proof.
  exact (insert_non_array_throws nat sample_raw 0 sample_fns "insert"
           (sample_doc 7) VUndefined s0
           (or_intror (or_introl eq_refl)) eq_refl).
Defined.

(** Two layers on [deleteOne]. *)
Lemma double_wrap_writes_witness :
  call (proxy (wrapped sample_raw 0 sample_fns) (instrument 1 outer_fns)
          (KStr "deleteOne"))
    [VObj [("name", VStr "ada")]; VUndefined] s0
  = (Ok (RPromise (Fulfilled sample_ack)),
     mkState [EvHook 1 DeleteFilter (VObj [("name", VStr "ada")]);
              EvHook 0 DeleteFilter
                (tag "outerDeleting" (VObj [("name", VStr "ada")]));
              EvCall (KStr "deleteOne")
                [tag "deleting"
                   (tag "outerDeleting" (VObj [("name", VStr "ada")]));
                 VUndefined]] 1).
Proof.
  assert (Hin : In "deleteOne" plain_writes) by (simpl; tauto).
  exact (double_wrap_writes nat sample_raw 0 sample_fns outer_fns 1
           "deleteOne" DeleteFilter 0
           [VObj [("name", VStr "ada")]; VUndefined]
           (tag "outerDeleting" (VObj [("name", VStr "ada")]))
           (tag "deleting" (tag "outerDeleting" (VObj [("name", VStr "ada")])))
           s0 Hin eq_refl eq_refl eq_refl).
Defined.

(** Two layers on [find], two of three documents consumed. *)
Lemma double_wrap_find_witness :
  exists c,
    call (proxy (wrapped sample_raw 0 sample_fns) (instrument 1 outer_fns)
            (KStr "find"))
      [VObj []; VUndefined] s0
    = (Ok (RCursor c),
       mkState [EvCall (KStr "find") [VObj []; VUndefined]] 1)
    /\ pending c = sample_docs
    /\ exists c',
         cursor_take 2 c (mkState [] 1)
         = (Ok ([tag "outerFound" (tag "found" (sample_doc 1));
                 tag "outerFound" (tag "found" (sample_doc 2))], c'),
            mkState [EvProduce (sample_doc 1);
                     EvHook 0 PostFind (sample_doc 1);
                     EvHook 1 PostFind (tag "found" (sample_doc 1));
                     EvProduce (sample_doc 2);
                     EvHook 0 PostFind (sample_doc 2);
                     EvHook 1 PostFind (tag "found" (sample_doc 2))] 1)
         /\ pending c' = [sample_doc 3].
Proof.
  exact (double_wrap_find nat sample_raw 0 sample_fns outer_fns 1
           (VObj []) VUndefined sample_find 1 sample_docs
           (tag "found") (tag "outerFound") 2 s0 (mkState [] 1)
           eq_refl eq_refl (fun d _ => conj eq_refl eq_refl)).
Defined.


(** [bulkWrite] is listed and passed through. *)
Lemma middlewareMethods_coverage_witness :
  In "bulkWrite" middlewareMethods
  /\ proxy (spy sample_raw) (instrument 0 sample_fns) (KStr "bulkWrite")
     = spy sample_raw (KStr "bulkWrite").
Proof.
  assert (Hin : In "bulkWrite" middlewareMethods) by (simpl; tauto).
  split; [ exact Hin | ].
  exact (proj2 (proj2 (proj2 (proj2 (middlewareMethods_coverage nat))))
           "bulkWrite" (instrument 0 sample_fns) (spy sample_raw)
           Hin eq_refl).
Defined.

(** A document boxed on the way in and unboxed on the way out. *)
Lemma read_write_round_trip_witness :
  bind (convertReadWriteCollection (spy store_raw) (instrument 0 boxing_fns))
    (fun h =>
       bind (call (h (KStr "insertOne")) [sample_doc 7; VUndefined])
         (fun _ => call (h (KStr "findOne")) [VObj []; VUndefined]))
    (mkState [] [])
  = (Ok (RPromise (Fulfilled (sample_doc 7))),
     mkState [EvHook 0 PreInsert (sample_doc 7);
              EvCall (KStr "insertOne") [tag "boxed" (sample_doc 7); VUndefined];
              EvCall (KStr "findOne") [VObj []; VUndefined];
              EvHook 0 PostFind (tag "boxed" (sample_doc 7))]
             [tag "boxed" (sample_doc 7)]).
Proof.
  exact (read_write_round_trip (list Val) store_raw 0 boxing_fns
           (sample_doc 7) VUndefined (VObj []) VUndefined
           (tag "boxed" (sample_doc 7)) store_insertOne store_findOne
           (RPromise (Fulfilled sample_ack))
           [tag "boxed" (sample_doc 7)] [tag "boxed" (sample_doc 7)]
           (mkState [] [])
           eq_refl eq_refl eq_refl eq_refl eq_refl eq_refl eq_refl).
Defined.
